(** * CrewAIFriday: role-gated PDF assistant pages

    A shallow embedding of the repository's original logic:
    - [config/conf.py]   the configured application list,
    - [login.py]         role-based filtering of the applications and the
                         navigation handed to the UI framework,
    - [pages/home.py]    the Gemini-backed page,
    - [pages/home1.py]   the OpenAI-backed page (retrieval + prompt assembly).

    The third-party libraries (UI framework, embedding, vector store, agent
    framework) are opaque: every call into them is an event of the run's
    trace.  What a call into the operating system, the embedding, vector
    store or agent libraries returns or raises is read from a [world]
    record; the calls into the UI framework are logged and return, apart
    from [st.stop()], which ends the run. *)

From Stdlib Require Import ZArith NArith List String Ascii Lia DecimalString Floats.
From stdpp Require Import base gmap sets list strings.

Local Open Scope N_scope.
Local Open Scope list_scope.

(** ** Python values *)

Module Py.

(** A Python [str] is a sequence of Unicode code points: [len] counts code
    points, so the one-character ellipsis of [home1.py] has length 1. *)
Definition pystr : Type := list N.

(** ASCII literals of the source. *)
Definition py (s : string) : pystr :=
  List.map N_of_ascii (list_ascii_of_string s).

Definition nl : pystr := [10].          (* "\n" *)
Definition space : N := 32.
Definition ellipsis : pystr := [8230].  (* U+2026 *)

(** [str.isspace] on one character: the Unicode White_Space characters plus
    the four ASCII information separators. *)
Definition isspace (c : N) : bool :=
  ((9 <=? c) && (c <=? 13)) || ((28 <=? c) && (c <=? 32))
  || (c =? 133) || (c =? 160) || (c =? 5760)
  || ((8192 <=? c) && (c <=? 8202))
  || (c =? 8232) || (c =? 8233) || (c =? 8239) || (c =? 8287)
  || (c =? 12288).

Fixpoint lstrip (s : pystr) : pystr :=
  match s with
  | c :: r => if isspace c then lstrip r else s
  | [] => []
  end.

Definition rstrip (s : pystr) : pystr := rev (lstrip (rev s)).

(** [s.strip()] *)
Definition strip (s : pystr) : pystr := rstrip (lstrip s).

(** [s.replace(a, b)] for one-character [a] and [b]. *)
Definition replace1 (a b : N) (s : pystr) : pystr :=
  List.map (fun c => if c =? a then b else c) s.

(** [sep.join(parts)] *)
Fixpoint join (sep : pystr) (parts : list pystr) : pystr :=
  match parts with
  | [] => []
  | [p] => p
  | p :: rest => p ++ sep ++ join sep rest
  end.

(** The text before the last occurrence of the character [sep], when there
    is one. *)
Fixpoint before_last (sep : N) (s : pystr) : option pystr :=
  match s with
  | [] => None
  | c :: r =>
      match before_last sep r with
      | Some p => Some (c :: p)
      | None => if c =? sep then Some [] else None
      end
  end.

(** [s.rsplit(sep, 1)[0]] for a one-character [sep]: the text before the
    last [sep], the whole of [s] when [sep] does not occur. *)
Definition rsplit1_head (sep : N) (s : pystr) : pystr :=
  match before_last sep s with
  | Some p => p
  | None => s
  end.

(** [s[:n]] *)
Definition slice_to (n : nat) (s : pystr) : pystr := firstn n s.

(** [str(i)] for an [int]. *)
Definition str_of_int (z : Z) : pystr := py (NilZero.string_of_int (Z.to_int z)).

(** [os.path.join(a, b)] on POSIX. *)
Definition path_join (a b : pystr) : pystr :=
  match b with
  | 47 :: _ => b
  | _ =>
      match List.last a 47 with
      | 47 => a ++ b
      | _ => a ++ [47] ++ b
      end
  end.

End Py.
Import Py.

(** ** config/conf.py *)

Module Conf.

(** One entry of [APPS].  The entries carry no ["page_icon"] key. *)
Record App := {
  name : pystr;
  description : pystr;
  page : pystr;
  access_privilege_role : list pystr
}.

Definition APPS : list App :=
  [ {| name := py "Personal ChatBot"; description := py "Personal ChatBot";
       page := py "home.py"; access_privilege_role := [py "user"] |};
    {| name := py "Personal ChatBot"; description := py "Personal ChatBot";
       page := py "home.py"; access_privilege_role := [py "admin"] |} ].

End Conf.

(** ** login.py, the authenticated branch *)

Module Login.
Import Conf.

(** [len(list(set(user_role).intersection(set(app["access_privilege_role"])))) > 0] *)
Definition roles_intersect (user_role allowed : list pystr) : bool :=
  (0 <? length (elements
     ((list_to_set user_role : gset pystr) ∩ list_to_set allowed)))%nat.

(** [user_role = st.session_state.get("roles")] is [None] or a list of
    role names; [apps = conf.APPS]. *)
Definition accessible_apps (user_role : option (list pystr)) (apps : list App)
  : list App :=
  match user_role with
  | None => []
  | Some roles =>
      if bool_decide (py "admin" ∈ roles) then apps
      else List.filter (fun app => roles_intersect roles (access_privilege_role app)) apps
  end.

(** A page handed to [st.Page]: the file under [conf.PAGES_DIR], title, icon
    and default flag. *)
Record Page := {
  page_file : pystr;
  title : pystr;
  icon : pystr;
  default : bool
}.

(** The [pages] dictionary given to [st.navigation]: one section holding
    [home1.py].  The section built from [accessible_apps] by
    [get_streamlit_pages] is commented out in the source, so the dictionary
    does not depend on the accessible applications. *)
Definition pages (accessible : list App) : list (pystr * list Page) :=
  [ ([127968; 65038] ++ py " Home",
     [ {| page_file := py "home1.py"; title := py "Apps";
          icon := py ":material/home:"; default := true |} ]) ].

(** The files a user can navigate to. *)
Definition navigable (user_role : option (list pystr)) (apps : list App)
  : list pystr :=
  List.map page_file (concat (List.map snd (pages (accessible_apps user_role apps)))).

End Login.

(** ** The run-time model shared by the two pages *)

Module Run.

(** Exceptions deriving from [Exception] that the modelled calls raise;
    [str(e)] is [msg]. *)
Inductive error_class :=
  | DefaultCredentialsError | OSError | AttributeError | OtherException.

Record error := { cls : error_class; msg : pystr }.

(** What unwinds the script: [st.stop()] raises [StopException], which
    derives from [BaseException] and is therefore not caught by
    [except Exception]; everything else is an [error]. *)
Inductive exc := StopException | Error (e : error).

(** What a call into the operating system or a library does. *)
Inductive outcome (A : Type) := Returns (a : A) | Raises (e : error).
Arguments Returns {A} a.
Arguments Raises {A} e.

(** [uploaded_file]: its [name] and [getbuffer()]. *)
Record upload := { upload_name : pystr; getbuffer : list Byte.byte }.

(** A chat message, [{"role": ..., "content": ...}]. *)
Record message := { role : pystr; content : pystr }.

(** A langchain [Document]. *)
Inductive metaval := MInt (z : Z) | MStr (s : pystr).
Record Document := { page_content : pystr; metadata : gmap pystr metaval }.

(** Calls into the third-party libraries. *)
Inductive call :=
  | GoogleGenerativeAIEmbeddings (api_key : pystr)
  | ChatGoogleGenerativeAI (api_key : pystr)
  | OpenAIEmbeddings (api_key : pystr)
  | RagToolInit (persist_directory : pystr)
  | RagToolAdd (path : pystr)
  | AgentInit (tools : bool)
  | TaskInit (description expected_output : pystr)
  | CrewInit
  | CrewKickoff
  | PyPDFLoaderInit (path : pystr)
  | LoaderLoad
  | SplitDocuments (pages : list Document)
  | FaissFromDocuments (docs : list Document)
  | AsRetriever
  | GetRelevantDocuments (query : pystr)
  | SimilaritySearch (query : pystr) (k : nat)
  | SimilaritySearchWithScore (query : pystr) (k : nat).

(** What a run does, in order. *)
Inductive event :=
  | StSetPageConfig (page_title : pystr)
  | StTitle (s : pystr)
  | StError (s : pystr)
  | StWarning (s : pystr)
  | StInfo (s : pystr)
  | StFileUploader (label : pystr)
  | StSpinner (s : pystr)
  | StChatMessage (who text : pystr)
  | StChatInput (s : pystr)
  | FsOpenWb (path : pystr)
  | FsWrite (path : pystr) (data : list Byte.byte)
  | FsMakedirs (path : pystr)
  | FsRemove (path : pystr)
  | Lib (c : call).

(** The attributes of [st.session_state] the pages use; [None] is an absent
    attribute.  The session outlives a run of the script. *)
Record session_state := {
  vector_db_initialized : option bool;
  messages : option (list message);
  initialized : option bool
}.

(** What a path of the file system holds: a regular file with its bytes, or
    a directory. *)
Inductive node := File (data : list Byte.byte) | Dir.

(** The session, the file system as the script's own operating-system calls
    find and leave it, keyed by the path as the script spells it, and what
    the run did so far.  What a library keeps on disk behind one of its
    calls (the store of the RAG tool under the vector store directory) is
    the library's and is not part of [fs]. *)
Record state := {
  session : session_state;
  fs : gmap pystr node;
  trace : list event
}.

Inductive res (A : Type) := Val (a : A) | Exc (e : exc).
Arguments Val {A} a.
Arguments Exc {A} e.

(** Script fragments: state passing with exceptions. *)
Definition M (A : Type) : Type := state -> res A * state.

Definition ret {A} (a : A) : M A := fun s => (Val a, s).

Definition raise {A} (e : exc) : M A := fun s => (Exc e, s).

Definition bind {A B} (m : M A) (k : A -> M B) : M B :=
  fun s =>
    match m s with
    | (Val a, s1) => k a s1
    | (Exc e, s1) => (Exc e, s1)
    end.

Notation "'let*' x ':=' m 'in' k" := (bind m (fun x => k))
  (at level 10, x name, m at level 100, k at level 200).
Notation "m >> k" := (bind m (fun _ => k))
  (at level 90, right associativity).

Definition emit (e : event) : M unit :=
  fun s => (Val tt, {| session := session s; fs := fs s; trace := trace s ++ [e] |}).

(** [st.stop()] *)
Definition st_stop {A} : M A := raise StopException.

(** A library call: logged, then it returns or raises. *)
Definition lib {A} (c : call) (o : outcome A) : M A :=
  emit (Lib c) >>
  match o with
  | Returns a => ret a
  | Raises e => raise (Error e)
  end.

(** [try: body except <class> as e: handler e]; [catches] tells which
    errors the clause matches. *)
Definition try_except {A} (body : M A) (catches : error -> bool)
    (handler : error -> M A) : M A :=
  fun s =>
    match body s with
    | (Exc (Error e), s1) =>
        if catches e then handler e s1 else (Exc (Error e), s1)
    | r => r
    end.

(** [try: body finally: fin]; an exception of [fin] replaces the pending
    outcome, otherwise the outcome of [body] stands. *)
Definition try_finally {A} (body : M A) (fin : M unit) : M A :=
  fun s =>
    match body s with
    | (r, s1) =>
        match fin s1 with
        | (Val _, s2) => (r, s2)
        | (Exc e, s2) => (Exc e, s2)
        end
    end.

(** [except Exception] *)
Definition any_Exception (e : error) : bool := true.

(** [except DefaultCredentialsError] *)
Definition is_DefaultCredentialsError (e : error) : bool :=
  match cls e with DefaultCredentialsError => true | _ => false end.

(** The call returns, or raises what [except DefaultCredentialsError]
    catches. *)
Definition credentials_only (o : outcome unit) : bool :=
  match o with
  | Returns _ => true
  | Raises e => is_DefaultCredentialsError e
  end.

(** [not KEY] for the result of [os.getenv]: unset or empty. *)
Definition absent (key : option pystr) : bool :=
  match key with
  | None | Some [] => true
  | Some (_ :: _) => false
  end.

Definition get_session : M session_state := fun s => (Val (session s), s).

Definition put_session (ss : session_state) : M unit :=
  fun s => (Val tt, {| session := ss; fs := fs s; trace := trace s |}).

Definition put_fs (f : gmap pystr node) : M unit :=
  fun s => (Val tt, {| session := session s; fs := f; trace := trace s |}).

Definition set_vector_db_initialized (v : option bool) (ss : session_state) :=
  {| vector_db_initialized := v; messages := messages ss; initialized := initialized ss |}.

Definition set_messages (v : option (list message)) (ss : session_state) :=
  {| vector_db_initialized := vector_db_initialized ss; messages := v;
     initialized := initialized ss |}.

Definition set_initialized (v : option bool) (ss : session_state) :=
  {| vector_db_initialized := vector_db_initialized ss; messages := messages ss;
     initialized := v |}.

Definition attribute_error {A} (attr : pystr) : M A :=
  raise (Error {| cls := AttributeError; msg := attr |}).

(** [with open(path, "wb") as f: f.write(data)]: opening creates or
    truncates the file, writing fills it. *)
Definition open_write (path : pystr) (data : list Byte.byte)
    (o_open o_write : outcome unit) : M unit :=
  emit (FsOpenWb path) >>
  match o_open with
  | Raises e => raise (Error e)
  | Returns _ =>
      (fun s => put_fs (<[path := File []]> (fs s)) s) >>
      emit (FsWrite path data) >>
      match o_write with
      | Raises e => raise (Error e)
      | Returns _ => fun s => put_fs (<[path := File data]> (fs s)) s
      end
  end.

(** [os.makedirs(path, exist_ok=True)]: whether the call returns is the
    operating system's; when it returns the path is a directory, made by the
    call or there before it.  Both pages make the directory next to the
    script or in the working directory, so no parent is made with it. *)
Definition makedirs (path : pystr) (o : outcome unit) : M unit :=
  emit (FsMakedirs path) >>
  match o with
  | Returns _ => fun s => put_fs (<[path := Dir]> (fs s)) s
  | Raises e => raise (Error e)
  end.

(** The [finally] block of both pages:
    [if os.path.exists(temp_path): try: os.remove(temp_path) except Exception: pass] *)
Definition cleanup (temp_path : pystr) (o_remove : outcome unit) : M unit :=
  fun s =>
    match fs s !! temp_path with
    | Some _ =>
        try_except
          (emit (FsRemove temp_path) >>
           match o_remove with
           | Returns _ => fun s1 => put_fs (delete temp_path (fs s1)) s1
           | Raises e => raise (Error e)
           end)
          any_Exception (fun _ => ret tt) s
    | None => (Val tt, s)
    end.

(** [if "messages" not in st.session_state: st.session_state.messages = []] *)
Definition init_messages : M unit :=
  let* ss := get_session in
  match messages ss with
  | None => put_session (set_messages (Some []) ss)
  | Some _ => ret tt
  end.

(** [for msg in st.session_state.messages:
       st.chat_message(msg["role"]).markdown(msg["content"])] *)
Fixpoint show_each (l : list message) : M unit :=
  match l with
  | [] => ret tt
  | m :: r => emit (StChatMessage (role m) (content m)) >> show_each r
  end.

Definition show_history : M unit :=
  let* ss := get_session in
  match messages ss with
  | Some l => show_each l
  | None => attribute_error (py "messages")
  end.

(** [st.session_state.messages.append(m)] *)
Definition append_message (m : message) : M unit :=
  let* ss := get_session in
  match messages ss with
  | Some l => put_session (set_messages (Some (l ++ [m])) ss)
  | None => attribute_error (py "messages")
  end.

(** The events a run adds are those after the ones already logged. *)
Definition added (s s' : state) : list event := drop (length (trace s)) (trace s').

(** [s] with the events [l] logged and nothing else changed. *)
Definition log (s : state) (l : list event) : state :=
  {| session := session s; fs := fs s; trace := trace s ++ l |}.

(** [s] once [data] has been written to the file [path]. *)
Definition with_file (s : state) (path : pystr) (data : list Byte.byte) : state :=
  {| session := session s; fs := <[path := File data]> (fs s); trace := trace s |}.

(** [s] once [os.makedirs(path, exist_ok=True)] has returned. *)
Definition with_dir (s : state) (path : pystr) : state :=
  {| session := session s; fs := <[path := Dir]> (fs s); trace := trace s |}.

(** Calls that leave the script: the file system and the libraries. *)
Definition external (e : event) : bool :=
  match e with
  | FsOpenWb _ | FsWrite _ _ | FsMakedirs _ | FsRemove _ | Lib _ => true
  | _ => false
  end.

(** What is done with the saved upload: library calls and the vector
    store directory. *)
Definition processing_event (e : event) : bool :=
  match e with
  | Lib _ | FsMakedirs _ => true
  | _ => false
  end.

(** Opening, writing and removing a file. *)
Definition touches_file (e : event) : bool :=
  match e with
  | FsOpenWb _ | FsWrite _ _ | FsRemove _ => true
  | _ => false
  end.

Definition is_add (e : event) : bool :=
  match e with
  | Lib (RagToolAdd _) => true
  | _ => false
  end.

Definition is_message (e : event) : bool :=
  match e with
  | StError _ | StWarning _ => true
  | _ => false
  end.

Definition is_returns {A} (o : outcome A) : bool :=
  match o with
  | Returns _ => true
  | Raises _ => false
  end.

(** Every event that [m] logs satisfies [P], and [m] only ever appends to
    the trace. *)
Definition emits {A} (P : event -> Prop) (m : M A) : Prop :=
  forall s, exists l, trace (snd (m s)) = trace s ++ l /\ Forall P l.

(** Whatever exists at [path] before [m] still exists there after it. *)
Definition keeps {A} (path : pystr) (m : M A) : Prop :=
  forall s, is_Some (fs s !! path) -> is_Some (fs (snd (m s)) !! path).

(** Run from [s], the fragment [m] ends with [r] after logging exactly the
    events [l], and leaves session and files as they were. *)
Definition shown {A} (m : M A) (s : state) (r : res A) (l : list event) : Prop :=
  m s = (r, log s l).

(** The only removal allowed is that of [temp_path]. *)
Definition removes_only (temp_path : pystr) (e : event) : bool :=
  match e with
  | FsRemove p => bool_decide (p = temp_path)
  | _ => true
  end.

(** [outer] is what the script does when the body of its outer [try] does
    [inner] and the [finally] block then cleans up [temp_path]: the outcome
    and the session are those of the body; when the file exists one removal
    is attempted, and whether it returns or raises nothing else happens; when
    the removal returns the file is gone. *)
Definition cleaned_up {A} (inner outer : res A * state) (temp_path : pystr)
    (o_remove : outcome unit) : Prop :=
  fst outer = fst inner
  /\ session (snd outer) = session (snd inner)
  /\ match fs (snd inner) !! temp_path with
     | Some _ =>
         trace (snd outer) = trace (snd inner) ++ [FsRemove temp_path]
         /\ fs (snd outer) =
            (if is_returns o_remove then delete temp_path (fs (snd inner))
             else fs (snd inner))
     | None => snd outer = snd inner
     end
  /\ (is_returns o_remove = true -> fs (snd outer) !! temp_path = None).

End Run.

(** ** pages/home.py, the Gemini-backed page *)

Module Home.
Import Run.

(** What one run of the script reads from its environment: the API key
    ([os.getenv] after [load_dotenv]), the widgets' values, and what each
    call into the operating system or a library does. *)
Record world := {
  GEMINI_API_KEY : option pystr;
  uploaded_file : option upload;
  o_open : outcome unit;
  o_write : outcome unit;
  o_embeddings : outcome unit;
  o_llm : outcome unit;
  o_makedirs : outcome unit;
  o_rag_tool : outcome unit;
  o_add : outcome unit;
  o_agent : outcome unit;
  user_input : option pystr;
  o_task : outcome unit;
  o_crew : outcome unit;
  o_kickoff : outcome pystr;
  o_remove : outcome unit
}.

Definition key_error : pystr :=
  py "GEMINI_API_KEY not set. Add it to your .env (GEMINI_API_KEY=...) or environment and restart.".

Definition adc_error : pystr :=
  py "Google Application Default Credentials not found. "
  ++ py "Set GOOGLE_APPLICATION_CREDENTIALS to a service account JSON file or follow: "
  ++ py "https://cloud.google.com/docs/authentication/external/set-up-adc".

(** Lines 12-18. *)
Definition check_key (w : world) : M unit :=
  emit (StSetPageConfig (py "PDF Assistant")) >>
  emit (StTitle ([128196] ++ py " PDF Assistant")) >>
  if absent (GEMINI_API_KEY w) then emit (StError key_error) >> st_stop
  else ret tt.

(** Lines 32-48. *)
Definition load_models (w : world) : M unit :=
  let key := default [] (GEMINI_API_KEY w) in
  try_except
    (lib (GoogleGenerativeAIEmbeddings key) (o_embeddings w) >>
     lib (ChatGoogleGenerativeAI key) (o_llm w))
    is_DefaultCredentialsError
    (fun _ => emit (StError adc_error) >> st_stop).

(** Lines 51-52. *)
Definition init_flag : M unit :=
  let* ss := get_session in
  match vector_db_initialized ss with
  | None => put_session (set_vector_db_initialized (Some false) ss)
  | Some _ => ret tt
  end.

Definition vector_db_path : pystr := py "./vector_db".

(** Lines 59-66. *)
Definition init_rag_tool (w : world) : M unit :=
  try_except
    (lib (RagToolInit vector_db_path) (o_rag_tool w))
    any_Exception
    (fun e => emit (StError (py "Failed to initialize RAG tool: " ++ msg e)) >> st_stop).

(** Lines 68-75. *)
Definition index_pdf (w : world) (temp_path : pystr) : M unit :=
  let* ss := get_session in
  match vector_db_initialized ss with
  | None => attribute_error (py "vector_db_initialized")
  | Some true => ret tt
  | Some false =>
      emit (StSpinner (py "Loading PDF into vector database...")) >>
      try_except
        (lib (RagToolAdd temp_path) (o_add w) >>
         let* ss1 := get_session in
         put_session (set_vector_db_initialized (Some true) ss1))
        any_Exception
        (fun e => emit (StError (py "Error loading PDF: " ++ msg e)) >> st_stop)
  end.

(** Lines 101-114. *)
Definition question (w : world) (up : upload) (q : pystr) : M unit :=
  try_except
    (lib (TaskInit q (py "Answer based on the content of " ++ upload_name up))
         (o_task w) >>
     lib CrewInit (o_crew w) >>
     let* result := lib CrewKickoff (o_kickoff w) in
     emit (StChatMessage (py "assistant") result) >>
     append_message {| role := py "assistant"; content := result |})
    any_Exception
    (fun e => emit (StError (py "Error processing your question: " ++ msg e))).

(** Lines 94-114. *)
Definition answer (w : world) (up : upload) : M unit :=
  emit (StChatInput (py "Ask something about the uploaded PDF...")) >>
  match user_input w with
  | None | Some [] => ret tt
  | Some ((_ :: _) as q) =>
      emit (StChatMessage (py "user") q) >>
      append_message {| role := py "user"; content := q |} >>
      emit (StSpinner (py "Analyzing your question...")) >>
      question w up q
  end.

(** [temp_path = f"temp_{uploaded_file.name}"] *)
Definition temp_path (up : upload) : pystr := py "temp_" ++ upload_name up.

(** Lines 31-114: what follows the saving of the upload. *)
Definition after_save (w : world) (up : upload) : M unit :=
  load_models w >>
  init_flag >>
  makedirs vector_db_path (o_makedirs w) >>
  init_rag_tool w >>
  index_pdf w (temp_path up) >>
  lib (AgentInit true) (o_agent w) >>
  init_messages >>
  show_history >>
  answer w up.

(** The body of the outer [try], lines 27-114. *)
Definition processing (w : world) (up : upload) : M unit :=
  emit (StSpinner (py "Processing uploaded file...")) >>
  open_write (temp_path up) (getbuffer up) (o_open w) (o_write w) >>
  after_save w up.

(** Lines 12-21. *)
Definition before_upload (w : world) : M unit :=
  check_key w >>
  emit (StFileUploader (py "Upload your PDF file")).

(** One run of the script. *)
Definition home (w : world) : M unit :=
  before_upload w >>
  match uploaded_file w with
  | Some up => try_finally (processing w up) (cleanup (temp_path up) (o_remove w))
  | None => emit (StInfo (py "Please upload a PDF file to start the conversation."))
  end.

(** Reruns of the script within one session, each with its own inputs. *)
Fixpoint reruns (ws : list world) (s : state) : state :=
  match ws with
  | [] => s
  | w :: rest => reruns rest (snd (home w s))
  end.

(** A run that called [rag_tool.add] and saw it return. *)
Definition indexed (w : world) (s : state) : bool :=
  existsb is_add (added s (snd (home w s))) && is_returns (o_add w).

(** The number of such runs in a sequence of reruns. *)
Fixpoint successful_adds (ws : list world) (s : state) : nat :=
  match ws with
  | [] => 0%nat
  | w :: rest =>
      ((if indexed w s then 1 else 0) + successful_adds rest (snd (home w s)))%nat
  end.

End Home.

(** ** pages/home1.py, the OpenAI-backed page *)

Module Home1.
Import Run.

Record world := {
  OPENAI_API_KEY : option pystr;
  uploaded_file : option upload;
  gettempdir : pystr;                 (* tempfile.gettempdir() *)
  file_dir : pystr;                   (* os.path.dirname(__file__) *)
  o_open : outcome unit;
  o_write : outcome unit;
  o_loader : outcome unit;
  o_load : outcome (list Document);
  o_split : outcome (list Document);
  o_embeddings : outcome unit;
  o_makedirs : outcome unit;
  o_from_documents : outcome unit;
  o_as_retriever : outcome unit;
  o_rag_tool : outcome unit;
  o_agent : outcome unit;
  user_input : option pystr;
  has_get_relevant_documents : bool;  (* hasattr(retriever, "get_relevant_documents") *)
  o_get_relevant_documents : outcome (list Document);
  o_similarity_search : outcome (list Document);
  o_similarity_search_with_score : outcome (list (Document * float));
  o_task : outcome unit;
  o_crew : outcome unit;
  o_kickoff : outcome pystr;
  o_remove : outcome unit
}.

Definition key_error : pystr :=
  py "OpenAI API key not found. Please add OPENAI_API_KEY to your .env file.".

(** Lines 17-23. *)
Definition check_key (w : world) : M unit :=
  emit (StSetPageConfig (py "PDF Assistant")) >>
  emit (StTitle ([128196] ++ py " PDF Assistant")) >>
  if absent (OPENAI_API_KEY w) then emit (StError key_error) >> st_stop
  else ret tt.

(** Lines 26-29. *)
Definition reset_flags : M unit :=
  let* ss := get_session in
  match initialized ss with
  | None =>
      put_session (set_vector_db_initialized None (set_initialized (Some false) ss))
  | Some _ => ret tt
  end.

(** [temp_path = os.path.join(tempfile.gettempdir(), f"temp_{uploaded_file.name}")] *)
Definition temp_path (w : world) (up : upload) : pystr :=
  path_join (gettempdir w) (py "temp_" ++ upload_name up).

Definition vector_db_path (w : world) : pystr :=
  path_join (file_dir w) (py "vector_db").

(** Lines 50-62: load, split, strip each chunk. *)
Definition load_and_split (w : world) (tp : pystr) : M (list Document) :=
  lib (PyPDFLoaderInit tp) (o_loader w) >>
  let* pages := lib LoaderLoad (o_load w) in
  let* docs := lib (SplitDocuments pages) (o_split w) in
  ret (List.map (fun d => {| page_content := strip (page_content d);
                             metadata := metadata d |}) docs).

(** Lines 65-71. *)
Definition init_embeddings (w : world) : M unit :=
  try_except
    (lib (OpenAIEmbeddings (default [] (OPENAI_API_KEY w))) (o_embeddings w))
    any_Exception
    (fun e => emit (StError (py "Failed to initialize OpenAI embeddings: " ++ msg e))
              >> st_stop).

(** Lines 74-81. *)
Definition build_vectorstore (w : world) (docs : list Document) : M unit :=
  try_except
    (makedirs (vector_db_path w) (o_makedirs w) >>
     lib (FaissFromDocuments docs) (o_from_documents w))
    any_Exception
    (fun e => emit (StError (py "Failed to build vector store: " ++ msg e)) >> st_stop).

(** Lines 90-98: the result tells whether [rag_tool] is a tool or [None]. *)
Definition init_rag_tool (w : world) : M bool :=
  try_except
    (lib (RagToolInit (vector_db_path w)) (o_rag_tool w) >> ret true)
    any_Exception
    (fun e =>
       emit (StWarning (py "RagTool init failed (will still use retriever): " ++ msg e))
       >> ret false).

(** Lines 129-138. *)
Definition retrieve (w : world) (q : pystr) : M (list Document) :=
  if has_get_relevant_documents w then
    let* found := lib (GetRelevantDocuments q) (o_get_relevant_documents w) in
    ret (firstn 5 found)
  else
    try_except
      (lib (SimilaritySearch q 5) (o_similarity_search w))
      any_Exception
      (fun _ =>
         let* ss := lib (SimilaritySearchWithScore q 5)
                        (o_similarity_search_with_score w) in
         ret (List.map fst ss)).

Definition str_of_meta (v : metaval) : pystr :=
  match v with
  | MInt z => str_of_int z
  | MStr s => s
  end.

(** [d.metadata.get("page", d.metadata.get("source", f"chunk-{i}"))] *)
Definition source_label (i : nat) (d : Document) : pystr :=
  match metadata d !! py "page" with
  | Some v => str_of_meta v
  | None =>
      match metadata d !! py "source" with
      | Some v => str_of_meta v
      | None => py "chunk-" ++ str_of_int (Z.of_nat i)
      end
  end.

(** Line 145: [d.page_content.replace("\n", " ").strip()] *)
Definition cleaned (d : Document) : pystr :=
  strip (replace1 10 32 (page_content d)).

(** Lines 145-148. *)
Definition snippet (d : Document) : pystr :=
  let s := cleaned d in
  if (1000 <? length s)%nat
  then rsplit1_head space (slice_to 1000 s) ++ ellipsis
  else s.

(** Line 149: [f"[Source: {src}]\n{snippet}"] *)
Definition context_part (i : nat) (d : Document) : pystr :=
  py "[Source: " ++ source_label i d ++ py "]" ++ nl ++ snippet d.

(** Lines 142-149, [enumerate] counting from [i]. *)
Fixpoint context_parts_from (i : nat) (top_docs : list Document) : list pystr :=
  match top_docs with
  | [] => []
  | d :: rest => context_part i d :: context_parts_from (S i) rest
  end.

Definition context_parts (top_docs : list Document) : list pystr :=
  context_parts_from 1 top_docs.

Definition separator : pystr := nl ++ nl ++ py "---" ++ nl ++ nl.

Definition placeholder : pystr := py "No relevant text was found in the document.".

(** Lines 151-153. *)
Definition context_text (parts : list pystr) : pystr :=
  match strip (join separator parts) with
  | [] => placeholder
  | t => t
  end.

Definition prompt_head : pystr :=
  py "You are provided with context extracted from a PDF (below). Use ONLY this context to answer the question. "
  ++ py "If the answer is not contained in the context, say you don't know. Cite the source labels in your answer."
  ++ nl ++ nl ++ py "CONTEXT:" ++ nl.

Definition prompt_tail : pystr :=
  nl ++ nl
  ++ py "Answer concisely and include source citations like [Source: page_number] or [Source: chunk-1].".

(** Lines 156-161. *)
Definition task_description (ctx q : pystr) : pystr :=
  prompt_head ++ ctx ++ nl ++ nl ++ py "QUESTION:" ++ nl ++ q ++ prompt_tail.

(** Lines 127-175. *)
Definition question (w : world) (up : upload) (q : pystr) : M unit :=
  try_except
    (let* top_docs := retrieve w q in
     let description := task_description (context_text (context_parts top_docs)) q in
     lib (TaskInit description
            (py "Answer and cite sources (from " ++ upload_name up ++ py ")"))
         (o_task w) >>
     lib CrewInit (o_crew w) >>
     let* result := lib CrewKickoff (o_kickoff w) in
     emit (StChatMessage (py "assistant") result) >>
     append_message {| role := py "assistant"; content := result |})
    any_Exception
    (fun e => emit (StError (py "Error processing question: " ++ msg e))).

(** Lines 120-175. *)
Definition answer (w : world) (up : upload) : M unit :=
  emit (StChatInput (py "Ask something about the uploaded PDF...")) >>
  match user_input w with
  | None | Some [] => ret tt
  | Some ((_ :: _) as q) =>
      emit (StChatMessage (py "user") q) >>
      append_message {| role := py "user"; content := q |} >>
      emit (StSpinner (py "Retrieving relevant passages...")) >>
      question w up q
  end.

(** Lines 45-175: what follows the saving of the upload. *)
Definition after_save (w : world) (up : upload) : M unit :=
  let* docs := load_and_split w (temp_path w up) in
  init_embeddings w >>
  build_vectorstore w docs >>
  lib AsRetriever (o_as_retriever w) >>
  let* tools := init_rag_tool w in
  init_messages >>
  show_history >>
  lib (AgentInit tools) (o_agent w) >>
  answer w up.

(** The body of the outer [try], lines 41-175. *)
Definition processing (w : world) (up : upload) : M unit :=
  emit (StSpinner (py "Processing uploaded file...")) >>
  open_write (temp_path w up) (getbuffer up) (o_open w) (o_write w) >>
  after_save w up.

(** Lines 17-32. *)
Definition before_upload (w : world) : M unit :=
  check_key w >>
  reset_flags >>
  emit (StFileUploader (py "Upload your PDF file")).

(** One run of the script. *)
Definition home1 (w : world) : M unit :=
  before_upload w >>
  match uploaded_file w with
  | Some up => try_finally (processing w up) (cleanup (temp_path w up) (o_remove w))
  | None => emit (StInfo (py "Please upload a PDF file to start the conversation."))
  end.

End Home1.

(** ** Sample runs *)

Module Samples.
Import Run.

Definition fresh : state :=
  {| session := {| vector_db_initialized := None; messages := None;
                   initialized := None |};
     fs := ∅; trace := [] |}.

Definition report : upload :=
  {| upload_name := py "report.pdf"; getbuffer := [Byte.x25; Byte.x50; Byte.x44; Byte.x46] |}.

Definition boom : error := {| cls := OtherException; msg := py "boom" |}.

(** A Gemini-page run where everything works and a question is asked. *)
Definition gemini_ok : Home.world :=
  {| Home.GEMINI_API_KEY := Some (py "g-key");
     Home.uploaded_file := Some report;
     Home.o_open := Returns tt; Home.o_write := Returns tt;
     Home.o_embeddings := Returns tt; Home.o_llm := Returns tt;
     Home.o_makedirs := Returns tt; Home.o_rag_tool := Returns tt;
     Home.o_add := Returns tt; Home.o_agent := Returns tt;
     Home.user_input := Some (py "What is the total?");
     Home.o_task := Returns tt; Home.o_crew := Returns tt;
     Home.o_kickoff := Returns (py "42"); Home.o_remove := Returns tt |}.

(** The same run with the embedding model raising an error that is not a
    [DefaultCredentialsError]. *)
Definition gemini_bad_model : Home.world :=
  {| Home.GEMINI_API_KEY := Some (py "g-key");
     Home.uploaded_file := Some report;
     Home.o_open := Returns tt; Home.o_write := Returns tt;
     Home.o_embeddings := Raises boom; Home.o_llm := Returns tt;
     Home.o_makedirs := Returns tt; Home.o_rag_tool := Returns tt;
     Home.o_add := Returns tt; Home.o_agent := Returns tt;
     Home.user_input := Some (py "What is the total?");
     Home.o_task := Returns tt; Home.o_crew := Returns tt;
     Home.o_kickoff := Returns (py "42"); Home.o_remove := Returns tt |}.

(** A Gemini-page run without an API key. *)
Definition gemini_no_key : Home.world :=
  {| Home.GEMINI_API_KEY := None;
     Home.uploaded_file := Some report;
     Home.o_open := Returns tt; Home.o_write := Returns tt;
     Home.o_embeddings := Returns tt; Home.o_llm := Returns tt;
     Home.o_makedirs := Returns tt; Home.o_rag_tool := Returns tt;
     Home.o_add := Returns tt; Home.o_agent := Returns tt;
     Home.user_input := None;
     Home.o_task := Returns tt; Home.o_crew := Returns tt;
     Home.o_kickoff := Returns (py "42"); Home.o_remove := Returns tt |}.

Definition page3 : Document :=
  {| page_content := py "  Total revenue was 42.  ";
     metadata := {[ py "page" := MInt 3 ]} |}.


(** 1200 characters without a space, then a space and a word. *)
Definition long_doc : Document :=
  {| page_content := py "alpha beta " ++ List.repeat 120 1200 ++ py " end";
     metadata := {[ py "source" := MStr (py "report.pdf") ]} |}.

(** 1200 characters without any space. *)
Definition unbroken : Document :=
  {| page_content := List.repeat 120 1200; metadata := ∅ |}.

(** An OpenAI-page run; the fields that vary are the arguments. *)
Definition openai (key : option pystr) (has : bool)
    (found : outcome (list Document)) (kick : outcome pystr) : Home1.world :=
  {| Home1.OPENAI_API_KEY := key;
     Home1.uploaded_file := Some report;
     Home1.gettempdir := py "/tmp";
     Home1.file_dir := py "/app/pages";
     Home1.o_open := Returns tt; Home1.o_write := Returns tt;
     Home1.o_loader := Returns tt; Home1.o_load := Returns [page3];
     Home1.o_split := Returns [page3; long_doc];
     Home1.o_embeddings := Returns tt; Home1.o_makedirs := Returns tt;
     Home1.o_from_documents := Returns tt; Home1.o_as_retriever := Returns tt;
     Home1.o_rag_tool := Returns tt; Home1.o_agent := Returns tt;
     Home1.user_input := Some (py "What is the total?");
     Home1.has_get_relevant_documents := has;
     Home1.o_get_relevant_documents := found;
     Home1.o_similarity_search := found;
     Home1.o_similarity_search_with_score := Raises boom;
     Home1.o_task := Returns tt; Home1.o_crew := Returns tt;
     Home1.o_kickoff := kick; Home1.o_remove := Returns tt |}.

Definition openai_ok : Home1.world :=
  openai (Some (py "o-key")) true (Returns [page3; long_doc]) (Returns (py "42")).

End Samples.

(** ** login.py, the whole script around the login widget *)

Module LoginScript.
Import Conf Login.

(** What [login.py] finds in [st.session_state]: [None], a flag, a string
    (the session id, the user's name) or a list of strings (the roles). *)
Inductive sval :=
  | SNone
  | SBool (b : bool)
  | SStr (s : pystr)
  | SList (l : list pystr).

(** Python's truth value. *)
Definition truthy (v : sval) : bool :=
  match v with
  | SNone => false
  | SBool b => b
  | SStr [] => false
  | SStr (_ :: _) => true
  | SList [] => false
  | SList (_ :: _) => true
  end.

(** Lines 36-37: [uuid4] is the text of the identifier drawn by
    [uuid.uuid4()]. *)
Definition init_session_id (uuid4 : pystr) (ss : gmap pystr sval)
  : gmap pystr sval :=
  match ss !! py "session_id" with
  | None => <[py "session_id" := SStr uuid4]> ss
  | Some _ => ss
  end.

Definition keys_to_clear : list pystr :=
  [py "authentication_status"; py "chat_messages"].

(** Lines 39-44: [for key in keys_to_clear: if key in st.session_state:
    del st.session_state[key]], whatever the values are. *)
Definition clear_session_state_on_logout {V} (ss : gmap pystr V) : gmap pystr V :=
  foldl (fun m key => match m !! key with
                      | Some _ => delete key m
                      | None => m
                      end) ss keys_to_clear.

(** [p in s] for two strings: [p] occurs in [s]. *)
Fixpoint starts_with (p s : pystr) : bool :=
  match p, s with
  | [], _ => true
  | a :: p', b :: s' => (a =? b) && starts_with p' s'
  | _ :: _, [] => false
  end.

Fixpoint contains (p s : pystr) : bool :=
  starts_with p s ||
  match s with
  | [] => false
  | _ :: s' => contains p s'
  end.

(** The items Python iterates over in a string: its characters. *)
Definition chars (s : pystr) : list pystr := List.map (fun c => [c]) s.

(** Lines 56-66 when [roles] is a string rather than a list: ["admin" in
    user_role] is then a substring test and [set(user_role)] the set of
    its characters. *)
Definition accessible_apps_str (s : pystr) (apps : list App) : list App :=
  if contains (py "admin") s then apps
  else List.filter (fun app => roles_intersect (chars s) (access_privilege_role app)) apps.

(** What the script shows and does. *)
Inductive levent :=
  | LColumns
  | LWelcome (name : option sval) (roles : pystr)
  | LLogout
  | LNavigation (pages : list (pystr * list Page))
  | LRun (file : pystr)
  | LError (s : pystr)
  | LInfo (s : pystr).

(** How the script ends: normally, or with the [TypeError] of line 51. *)
Inductive lres := Done | TypeError.

(** Lines 68-86 with the accessible applications [acc]: the page that
    [st.navigation] returns is the one page of the dictionary. *)
Definition navigate (acc : list App) : list levent :=
  LNavigation (pages acc)
  :: match concat (List.map snd (pages acc)) with
     | p :: _ => [LRun (page_file p)]
     | [] => []
     end.

(** Lines 49-86, the branch of an authenticated session.  Line 51 joins
    the roles with commas before anything is shown in the first column:
    [','.join(x)] raises [TypeError] unless [x] is a list of strings or a
    string. *)
Definition authenticated (apps : list App) (ss : gmap pystr sval)
  : lres * gmap pystr sval * list levent :=
  match ss !! py "roles" with
  | Some (SList l) =>
      (Done, ss,
       [LColumns; LWelcome (ss !! py "name") (join [44] l); LLogout]
       ++ navigate (accessible_apps (Some l) apps))
  | Some (SStr s) =>
      (Done, ss,
       [LColumns; LWelcome (ss !! py "name") (join [44] (chars s)); LLogout]
       ++ navigate (accessible_apps_str s apps))
  | _ => (TypeError, ss, [LColumns])
  end.

Definition please_log_in : pystr :=
  [9432] ++ py " Please enter your username and password".

(** Lines 48-94, on the session as [authenticator.login] leaves it. *)
Definition after_login (apps : list App) (ss : gmap pystr sval)
  : lres * gmap pystr sval * list levent :=
  match ss !! py "authentication_status" with
  | Some v =>
      if truthy v then authenticated apps ss
      else
        match v with
        | SBool false => (Done, ss, [LError (py "Username/password is incorrect")])
        | SNone => (Done, clear_session_state_on_logout ss, [LInfo please_log_in])
        | _ => (Done, ss, [])
        end
  | None => (Done, clear_session_state_on_logout ss, [LInfo please_log_in])
  end.

End LoginScript.

(** ** What a run is observed to do *)

Module Observe.
Import Run.

(** The number of times the agent is run, [crew.kickoff()]. *)
Fixpoint kickoffs (l : list event) : nat :=
  match l with
  | [] => 0
  | Lib CrewKickoff :: r => S (kickoffs r)
  | _ :: r => kickoffs r
  end.

Definition is_chat_input (e : event) : bool :=
  match e with
  | StChatInput _ => true
  | _ => false
  end.

(** The messages of the session, none when the attribute is absent. *)
Definition history (s : state) : list message :=
  default [] (messages (session s)).

(** A message of the user or of the assistant. *)
Definition chat_role (m : message) : Prop :=
  role m = py "user" \/ role m = py "assistant".


(** [s] with the trace [t]. *)
Definition with_trace (s : state) (t : list event) : state :=
  {| session := session s; fs := fs s; trace := t |}.

(** A fragment that neither reads nor rewrites the trace: what it does from
    [s] is what it does from [s] with an empty trace, after the events
    already logged. *)
Definition framed {A} (m : M A) : Prop :=
  forall s,
    m s = (fst (m (with_trace s [])),
           with_trace (snd (m (with_trace s [])))
             (trace s ++ trace (snd (m (with_trace s []))))).

End Observe.

(** ** More sample runs *)

Module MoreSamples.
Import Run.

(** An OpenAI-page run in which no file is uploaded. *)
Definition idle : Home1.world :=
  {| Home1.OPENAI_API_KEY := Some (py "o-key");
     Home1.uploaded_file := None;
     Home1.gettempdir := py "/tmp";
     Home1.file_dir := py "/app/pages";
     Home1.o_open := Returns tt; Home1.o_write := Returns tt;
     Home1.o_loader := Returns tt; Home1.o_load := Returns [];
     Home1.o_split := Returns [];
     Home1.o_embeddings := Returns tt; Home1.o_makedirs := Returns tt;
     Home1.o_from_documents := Returns tt; Home1.o_as_retriever := Returns tt;
     Home1.o_rag_tool := Returns tt; Home1.o_agent := Returns tt;
     Home1.user_input := None;
     Home1.has_get_relevant_documents := true;
     Home1.o_get_relevant_documents := Returns [];
     Home1.o_similarity_search := Returns [];
     Home1.o_similarity_search_with_score := Returns [];
     Home1.o_task := Returns tt; Home1.o_crew := Returns tt;
     Home1.o_kickoff := Returns []; Home1.o_remove := Returns tt |}.

(** An OpenAI-page run in which the RAG tool cannot be created. *)
Definition rag_down : Home1.world :=
  {| Home1.OPENAI_API_KEY := Some (py "o-key");
     Home1.uploaded_file := Some Samples.report;
     Home1.gettempdir := py "/tmp";
     Home1.file_dir := py "/app/pages";
     Home1.o_open := Returns tt; Home1.o_write := Returns tt;
     Home1.o_loader := Returns tt; Home1.o_load := Returns [Samples.page3];
     Home1.o_split := Returns [Samples.page3];
     Home1.o_embeddings := Returns tt; Home1.o_makedirs := Returns tt;
     Home1.o_from_documents := Returns tt; Home1.o_as_retriever := Returns tt;
     Home1.o_rag_tool := Raises Samples.boom; Home1.o_agent := Returns tt;
     Home1.user_input := None;
     Home1.has_get_relevant_documents := true;
     Home1.o_get_relevant_documents := Returns [];
     Home1.o_similarity_search := Returns [];
     Home1.o_similarity_search_with_score := Returns [];
     Home1.o_task := Returns tt; Home1.o_crew := Returns tt;
     Home1.o_kickoff := Returns []; Home1.o_remove := Returns tt |}.

End MoreSamples.

(** * Properties *)

Import Run.

(** ** Role-based filtering ([login.py]) *)

Section LoginProps.
Import Conf Login.

Lemma roles_intersect_true (roles allowed : list pystr) :
  roles_intersect roles allowed = true <-> exists r, r ∈ roles /\ r ∈ allowed.
Proof.
  unfold roles_intersect.
  destruct (elements _) as [|r l] eqn:E; cbn.
  - split; [discriminate|]. intros (r & Hr & Ha).
    apply elements_empty_inv in E. apply leibniz_equiv in E.
    assert (r ∈ (list_to_set roles ∩ list_to_set allowed : gset pystr)) as Hin
      by (apply elem_of_intersection; by rewrite !elem_of_list_to_set).
    rewrite E in Hin. by apply not_elem_of_empty in Hin.
  - split; [intros _|done]. exists r.
    assert (r ∈ (list_to_set roles ∩ list_to_set allowed : gset pystr)) as Hin.
    { apply elem_of_elements. rewrite E. left. }
    apply elem_of_intersection in Hin. by rewrite !elem_of_list_to_set in Hin.
Qed.

Lemma accessible_apps_elem (roles : list pystr) (apps : list App) (app : App) :
  app ∈ accessible_apps (Some roles) apps <->
  app ∈ apps /\ (py "admin" ∈ roles \/
                 exists r, r ∈ roles /\ r ∈ access_privilege_role app).
Proof.
  unfold accessible_apps. case_bool_decide as Hadm.
  - tauto.
  - rewrite <- roles_intersect_true.
    rewrite (list_elem_of_In (List.filter _ apps) app), List.filter_In.
    rewrite <- (list_elem_of_In apps app). tauto.
Qed.

(** C1. For a user with a role list and an application of the configured
    list, the application is accessible exactly when "admin" is one of the
    roles or some role of the user is among the application's allowed roles;
    a user who is not admin and shares no role with the application is
    denied it. *)
Theorem accessible_apps_iff (roles : list pystr) (apps : list App) (app : App) :
  app ∈ apps ->
  (app ∈ accessible_apps (Some roles) apps <->
     py "admin" ∈ roles \/ exists r, r ∈ roles /\ r ∈ access_privilege_role app)
  /\ (py "admin" ∉ roles ->
      (forall r, r ∈ roles -> r ∉ access_privilege_role app) ->
      app ∉ accessible_apps (Some roles) apps).
Proof.
  intros Happ. rewrite accessible_apps_elem. split; [tauto|].
  intros Hadm Hdisj (_ & [H | (r & Hr & Ha)]); [done|]. by apply (Hdisj r).
Qed.

Lemma accessible_apps_iff_witness :
  let user_app := {| name := py "Personal ChatBot"; description := py "Personal ChatBot";
                     page := py "home.py"; access_privilege_role := [py "user"] |} in
  user_app ∈ APPS /\
  ((user_app ∈ accessible_apps (Some [py "guest"; py "user"]) APPS <->
      py "admin" ∈ [py "guest"; py "user"] \/
      exists r, r ∈ [py "guest"; py "user"] /\ r ∈ access_privilege_role user_app)
   /\ (py "admin" ∉ [py "guest"; py "user"] ->
       (forall r, r ∈ [py "guest"; py "user"] -> r ∉ access_privilege_role user_app) ->
       user_app ∉ accessible_apps (Some [py "guest"; py "user"]) APPS)).
Proof.
  intros user_app.
  assert (user_app ∈ APPS) as Hin by (apply list_elem_of_In; simpl; auto).
  split; [exact Hin|].
  exact (accessible_apps_iff [py "guest"; py "user"] APPS user_app Hin).
Defined.

(** The navigation never depends on the roles. *)
Lemma navigable_home1 (user_role : option (list pystr)) (apps : list App) :
  navigable user_role apps = [py "home1.py"].
Proof. reflexivity. Qed.

(** C2, as stated, fails: an admin is granted every configured application,
    but the page of a configured application ([home.py]) is not among the
    pages the admin can navigate to. *)
Lemma admin_pages_counterexample :
  py "admin" ∈ [py "admin"]
  /\ ~ (forall app, app ∈ APPS -> page app ∈ navigable (Some [py "admin"]) APPS).
Proof.
  split; [left|]. intros H.
  assert (py "home.py" ∈ [py "home1.py"]) as Hin.
  { apply (H {| name := py "Personal ChatBot"; description := py "Personal ChatBot";
                page := py "home.py"; access_privilege_role := [py "user"] |}).
    apply list_elem_of_In. simpl. auto. }
  apply list_elem_of_In in Hin. simpl in Hin. destruct Hin as [Heq|[]].
  vm_compute in Heq. discriminate Heq.
Qed.

(** C2, amended. With "admin" among the roles the accessible applications
    are the whole configured list; the navigation offered is the single page
    [home1.py], whatever the roles and the applications. *)
Theorem admin_all_apps (roles : list pystr) (apps : list App) :
  py "admin" ∈ roles ->
  accessible_apps (Some roles) apps = apps
  /\ navigable (Some roles) apps = [py "home1.py"].
Proof.
  intros Hadm. split; [|reflexivity].
  unfold accessible_apps. by rewrite bool_decide_eq_true_2.
Qed.

Lemma admin_all_apps_witness :
  py "admin" ∈ [py "user"; py "admin"]
  /\ accessible_apps (Some [py "user"; py "admin"]) APPS = APPS
  /\ navigable (Some [py "user"; py "admin"]) APPS = [py "home1.py"].
Proof.
  assert (py "admin" ∈ [py "user"; py "admin"]) as Hadm by (right; left).
  split; [exact Hadm|].
  exact (admin_all_apps [py "user"; py "admin"] APPS Hadm).
Defined.

End LoginProps.

(** ** API key check and temporary file ([home.py], [home1.py]) *)

Section RunProps.

Lemma added_log (s : state) (l : list event) : added s (log s l) = l.
Proof. unfold added, log; cbn. by rewrite drop_app_length. Qed.

Lemma finally_cleanup {A} (body : M A) (tp : pystr) (o : outcome unit) (s : state) :
  cleaned_up (body s) (try_finally body (cleanup tp o) s) tp o.
Proof.
  unfold cleaned_up, try_finally. destruct (body s) as [r1 s1]. cbn [fst snd].
  unfold cleanup. destruct (fs s1 !! tp) as [data|] eqn:Hex.
  - destruct o as [[]|e]; cbn; repeat split; auto.
    + intros _. apply lookup_delete_eq.
    + discriminate.
  - cbn. repeat split; auto.
Qed.

(** C3. On either page, when the API key read from the environment is unset
    or empty, the run shows the page title and one error message and stops:
    the events it adds are those three, none of which is a file-system or
    library call, and session and files are untouched. *)
Theorem missing_key_halts :
  (forall w s, absent (Home.GEMINI_API_KEY w) = true ->
     Home.home w s =
       (Exc StopException,
        log s [StSetPageConfig (py "PDF Assistant");
               StTitle ([128196] ++ py " PDF Assistant");
               StError Home.key_error])
     /\ forall e, e ∈ added s (snd (Home.home w s)) -> external e = false)
  /\ (forall w s, absent (Home1.OPENAI_API_KEY w) = true ->
     Home1.home1 w s =
       (Exc StopException,
        log s [StSetPageConfig (py "PDF Assistant");
               StTitle ([128196] ++ py " PDF Assistant");
               StError Home1.key_error])
     /\ forall e, e ∈ added s (snd (Home1.home1 w s)) -> external e = false).
Proof.
  split; intros w s Hkey.
  - assert (Home.home w s = (Exc StopException,
        log s [StSetPageConfig (py "PDF Assistant");
               StTitle ([128196] ++ py " PDF Assistant");
               StError Home.key_error])) as Hrun.
    { unfold Home.home, Home.before_upload, Home.check_key. rewrite Hkey.
      unfold bind, emit, st_stop, raise, log. cbn [session fs trace].
      by rewrite <- !app_assoc. }
    split; [exact Hrun|]. rewrite Hrun. cbn [snd]. rewrite added_log.
    intros e He. rewrite !elem_of_cons, elem_of_nil in He.
    destruct He as [->|[->|[->|[]]]]; reflexivity.
  - assert (Home1.home1 w s = (Exc StopException,
        log s [StSetPageConfig (py "PDF Assistant");
               StTitle ([128196] ++ py " PDF Assistant");
               StError Home1.key_error])) as Hrun.
    { unfold Home1.home1, Home1.before_upload, Home1.check_key. rewrite Hkey.
      unfold bind, emit, st_stop, raise, log. cbn [session fs trace].
      by rewrite <- !app_assoc. }
    split; [exact Hrun|]. rewrite Hrun. cbn [snd]. rewrite added_log.
    intros e He. rewrite !elem_of_cons, elem_of_nil in He.
    destruct He as [->|[->|[->|[]]]]; reflexivity.
Qed.

Lemma missing_key_halts_witness :
  absent (Home.GEMINI_API_KEY Samples.gemini_no_key) = true
  /\ fst (Home.home Samples.gemini_no_key Samples.fresh) = Exc StopException
  /\ absent (Home1.OPENAI_API_KEY
               (Samples.openai (Some []) true (Returns []) (Returns []))) = true
  /\ fst (Home1.home1 (Samples.openai (Some []) true (Returns []) (Returns []))
            Samples.fresh) = Exc StopException.
Proof.
  split; [reflexivity|]. split.
  - exact (f_equal fst (proj1 (proj1 missing_key_halts Samples.gemini_no_key
                                 Samples.fresh eq_refl))).
  - split; [reflexivity|].
    exact (f_equal fst (proj1 (proj2 missing_key_halts
             (Samples.openai (Some []) true (Returns []) (Returns []))
             Samples.fresh eq_refl))).
Defined.

(** C4. When a PDF was uploaded, whatever the processing block does --
    return, stop, or raise -- the [finally] block runs after it: the run's
    outcome and session are those of the block, one removal of the temporary
    path is attempted if the path exists, an error of the removal is
    suppressed, and after a removal that returns the file is gone. *)
Theorem temp_file_removed :
  (forall w s up s0,
     Home.uploaded_file w = Some up ->
     Home.before_upload w s = (Val tt, s0) ->
     cleaned_up (Home.processing w up s0) (Home.home w s)
                (Home.temp_path up) (Home.o_remove w))
  /\ (forall w s up s0,
     Home1.uploaded_file w = Some up ->
     Home1.before_upload w s = (Val tt, s0) ->
     cleaned_up (Home1.processing w up s0) (Home1.home1 w s)
                (Home1.temp_path w up) (Home1.o_remove w)).
Proof.
  split; intros w s up s0 Hup Hpre.
  - unfold Home.home, bind. rewrite Hpre, Hup. apply finally_cleanup.
  - unfold Home1.home1, bind. rewrite Hpre, Hup. apply finally_cleanup.
Qed.

Lemma temp_file_removed_witness :
  cleaned_up
    (Home.processing Samples.gemini_bad_model Samples.report
       (snd (Home.before_upload Samples.gemini_bad_model Samples.fresh)))
    (Home.home Samples.gemini_bad_model Samples.fresh)
    (Home.temp_path Samples.report) (Returns tt)
  /\ cleaned_up
    (Home1.processing Samples.openai_ok Samples.report
       (snd (Home1.before_upload Samples.openai_ok Samples.fresh)))
    (Home1.home1 Samples.openai_ok Samples.fresh)
    (Home1.temp_path Samples.openai_ok Samples.report) (Returns tt).
Proof.
  split.
  - exact (proj1 temp_file_removed Samples.gemini_bad_model Samples.fresh
             Samples.report _ eq_refl eq_refl).
  - exact (proj2 temp_file_removed Samples.openai_ok Samples.fresh
             Samples.report _ eq_refl eq_refl).
Defined.

End RunProps.

(** ** What a script fragment may log *)

Section Emits.
Context (P : event -> Prop).

Lemma emits_ret {A} (a : A) : emits P (ret a).
Proof. intros s. exists []. cbn. by rewrite app_nil_r. Qed.

Lemma emits_raise {A} (e : exc) : emits P (@raise A e).
Proof. intros s. exists []. cbn. by rewrite app_nil_r. Qed.

Lemma emits_emit (e : event) : P e -> emits P (emit e).
Proof. intros He s. exists [e]. cbn. auto. Qed.

Lemma emits_bind {A B} (m : M A) (k : A -> M B) :
  emits P m -> (forall a, emits P (k a)) -> emits P (bind m k).
Proof.
  intros Hm Hk s. unfold bind. destruct (Hm s) as (l1 & E1 & F1).
  destruct (m s) as [[a|e] s1]; cbn [snd] in *.
  - destruct (Hk a s1) as (l2 & E2 & F2). exists (l1 ++ l2).
    rewrite E2, E1, app_assoc. split; [done|]. by apply Forall_app.
  - by exists l1.
Qed.

Lemma emits_try_except {A} (body : M A) (catches : error -> bool)
    (handler : error -> M A) :
  emits P body -> (forall e, emits P (handler e)) ->
  emits P (try_except body catches handler).
Proof.
  intros Hb Hh s. unfold try_except. destruct (Hb s) as (l1 & E1 & F1).
  destruct (body s) as [[a|[|e]] s1]; cbn [snd] in *; try by exists l1.
  destruct (catches e); [|by exists l1].
  destruct (Hh e s1) as (l2 & E2 & F2). exists (l1 ++ l2).
  rewrite E2, E1, app_assoc. split; [done|]. by apply Forall_app.
Qed.

Lemma emits_try_finally {A} (body : M A) (fin : M unit) :
  emits P body -> emits P fin -> emits P (try_finally body fin).
Proof.
  intros Hb Hf s. unfold try_finally. destruct (Hb s) as (l1 & E1 & F1).
  destruct (body s) as [r s1]; cbn [snd] in *.
  destruct (Hf s1) as (l2 & E2 & F2).
  destruct (fin s1) as [[u|e] s2]; cbn [snd] in *; exists (l1 ++ l2);
    rewrite E2, E1, app_assoc; (split; [done|]); by apply Forall_app.
Qed.

Lemma emits_lib {A} (c : call) (o : outcome A) : P (Lib c) -> emits P (lib c o).
Proof.
  intros Hc. unfold lib. apply emits_bind; [by apply emits_emit|intros _].
  destruct o; [apply emits_ret|apply emits_raise].
Qed.

Lemma emits_get_session : emits P get_session.
Proof. intros s. exists []. cbn. by rewrite app_nil_r. Qed.

Lemma emits_put_session (ss : session_state) : emits P (put_session ss).
Proof. intros s. exists []. cbn. by rewrite app_nil_r. Qed.

Lemma emits_open_write (path : pystr) (data : list Byte.byte) (o1 o2 : outcome unit) :
  P (FsOpenWb path) -> P (FsWrite path data) ->
  emits P (open_write path data o1 o2).
Proof.
  intros H1 H2 s. unfold open_write, bind, emit, put_fs, raise.
  destruct o1 as [[]|e1]; cbn.
  - destruct o2 as [[]|e2]; cbn; exists [FsOpenWb path; FsWrite path data];
      rewrite <- app_assoc; auto.
  - exists [FsOpenWb path]. auto.
Qed.

Lemma emits_makedirs (path : pystr) (o : outcome unit) :
  P (FsMakedirs path) -> emits P (makedirs path o).
Proof.
  intros H s. unfold makedirs, bind, emit, put_fs, raise.
  destruct o as [[]|e]; cbn; exists [FsMakedirs path]; auto.
Qed.

Lemma emits_cleanup (tp : pystr) (o : outcome unit) :
  P (FsRemove tp) -> emits P (cleanup tp o).
Proof.
  intros H s. unfold cleanup. destruct (fs s !! tp).
  - destruct o as [[]|e]; cbn; exists [FsRemove tp]; auto.
  - exists []. cbn. by rewrite app_nil_r.
Qed.

Lemma emits_show_each (l : list message) :
  (forall a b, P (StChatMessage a b)) -> emits P (show_each l).
Proof.
  intros H. induction l as [|m l IH]; cbn [show_each].
  - apply emits_ret.
  - apply emits_bind; [by apply emits_emit|by intros _].
Qed.

End Emits.

Ltac emits_side :=
  cbv beta;
  first [ exact I | reflexivity | apply bool_decide_eq_true_2; reflexivity
        | intros; exact I | intros; reflexivity | split; reflexivity ].

Ltac emits_step :=
  first
    [ apply emits_bind; [|intros ?]
    | apply emits_try_except; [|intros ?]
    | apply emits_try_finally
    | apply emits_ret
    | apply emits_raise
    | apply emits_get_session
    | apply emits_put_session
    | apply emits_emit; emits_side
    | apply emits_lib; emits_side
    | apply emits_open_write; emits_side
    | apply emits_makedirs; emits_side
    | apply emits_cleanup; emits_side
    | apply emits_show_each; emits_side
    | match goal with
      | |- emits _ (match ?x with _ => _ end) => destruct x
      end ].

Ltac emits_run := repeat (emits_step; cbv beta zeta).


(** ** The upload is saved before it is processed *)

Section SavedFirst.

Lemma home_after_save_appends w up : emits (fun _ => True) (Home.after_save w up).
Proof.
  unfold Home.after_save, Home.load_models, Home.init_flag, Home.init_rag_tool,
    Home.index_pdf, Home.answer, Home.question, init_messages, show_history, append_message,
    attribute_error, st_stop.
  emits_run.
Qed.

Lemma home1_after_save_appends w up : emits (fun _ => True) (Home1.after_save w up).
Proof.
  unfold Home1.after_save, Home1.load_and_split, Home1.init_embeddings,
    Home1.build_vectorstore, Home1.init_rag_tool, Home1.answer, Home1.question,
    Home1.retrieve, init_messages, show_history, append_message, attribute_error,
    st_stop.
  emits_run.
Qed.

Lemma home_removes_only w up :
  Home.uploaded_file w = Some up ->
  emits (fun e => removes_only (Home.temp_path up) e = true) (Home.home w).
Proof.
  intros Hup. unfold Home.home. rewrite Hup.
  unfold Home.before_upload, Home.check_key, Home.processing, Home.after_save,
    Home.load_models, Home.init_flag, Home.init_rag_tool,
    Home.index_pdf, Home.answer, Home.question, init_messages, show_history, append_message,
    attribute_error, st_stop.
  emits_run.
Qed.

Lemma home1_removes_only w up :
  Home1.uploaded_file w = Some up ->
  emits (fun e => removes_only (Home1.temp_path w up) e = true) (Home1.home1 w).
Proof.
  intros Hup. unfold Home1.home1. rewrite Hup.
  unfold Home1.before_upload, Home1.check_key, Home1.reset_flags, Home1.processing,
    Home1.after_save, Home1.load_and_split, Home1.init_embeddings,
    Home1.build_vectorstore, Home1.init_rag_tool, Home1.answer, Home1.question,
    Home1.retrieve, init_messages, show_history, append_message, attribute_error,
    st_stop.
  emits_run.
Qed.

Lemma emits_added {A} (P : event -> Prop) (m : M A) (s : state) :
  emits P m -> Forall P (added s (snd (m s))).
Proof.
  intros Hm. destruct (Hm s) as (l & E & F). unfold added.
  by rewrite E, drop_app_length.
Qed.

Lemma removes_only_added {A} (m : M A) (s : state) (tp p : pystr) :
  emits (fun e => removes_only tp e = true) m ->
  FsRemove p ∈ added s (snd (m s)) -> p = tp.
Proof.
  intros Hm Hin. apply (emits_added _ _ s) in Hm.
  rewrite Forall_forall in Hm. specialize (Hm _ Hin). cbn in Hm.
  by apply bool_decide_eq_true in Hm.
Qed.

Lemma finally_trace {A} (body : M A) (tp : pystr) (o : outcome unit) (s : state) :
  exists l, trace (snd (try_finally body (cleanup tp o) s)) = trace (snd (body s)) ++ l
            /\ Forall (fun e => processing_event e = false) l.
Proof.
  destruct (finally_cleanup body tp o s) as (_ & _ & H & _).
  destruct (fs (snd (body s)) !! tp).
  - destruct H as [H _]. exists [FsRemove tp]. split; [done|]. by constructor.
  - exists []. rewrite H, app_nil_r. by split.
Qed.

(** In a trace that starts with events that are no processing, followed by
    the write [wr], every processing event has [wr] before it. *)
Lemma preceded_by (wr : event) (pre0 rest : list event) :
  Forall (fun e => processing_event e = false) pre0 ->
  processing_event wr = false ->
  forall pre e post,
    pre0 ++ wr :: rest = pre ++ e :: post -> processing_event e = true -> wr ∈ pre.
Proof.
  intros Hf Hwr. induction Hf as [|x pre0 Hx Hf IH]; intros pre e post Heq He.
  - destruct pre as [|y pre]; simplify_eq/=; [congruence|left].
  - destruct pre as [|y pre]; simplify_eq/=; [congruence|].
    right. by eapply IH.
Qed.

Lemma no_processing (l : list event) :
  Forall (fun e => processing_event e = false) l ->
  forall pre e post, l = pre ++ e :: post -> processing_event e = true -> False.
Proof.
  intros Hf pre e post -> He. apply Forall_app in Hf as [_ Hf].
  apply Forall_cons in Hf as [Hf _]. congruence.
Qed.

(** The events a run of [home.py] adds once a file is uploaded: either the
    write of the upload after six events that are no processing, or no
    processing at all. *)
Lemma home_shape w s up :
  absent (Home.GEMINI_API_KEY w) = false -> Home.uploaded_file w = Some up ->
  let l := added s (snd (Home.home w s)) in
  let pre0 := [StSetPageConfig (py "PDF Assistant");
               StTitle ([128196] ++ py " PDF Assistant");
               StFileUploader (py "Upload your PDF file");
               StSpinner (py "Processing uploaded file...");
               FsOpenWb (Home.temp_path up)] in
  match Home.o_open w, Home.o_write w with
  | Returns _, Returns _ =>
      exists rest, l = pre0 ++ FsWrite (Home.temp_path up) (getbuffer up) :: rest
  | _, _ => Forall (fun e => processing_event e = false) l
  end.
Proof.
  intros Hkey Hup l pre0. subst l. unfold Home.home, bind at 1.
  unfold Home.before_upload, Home.check_key. rewrite Hkey, Hup.
  unfold bind at 1. cbn [emit ret bind].
  match goal with |- context [try_finally ?b ?c ?s0] =>
    destruct (finally_trace b (Home.temp_path up) (Home.o_remove w) s0) as (l2 & E2 & F2)
  end.
  revert E2. unfold Home.processing, open_write, bind, emit, put_fs, raise.
  cbn [session fs trace].
  destruct (Home.o_open w) as [[]|e1]; [destruct (Home.o_write w) as [[]|e2]|];
    cbn [session fs trace fst snd].
  - match goal with |- context [Home.after_save w up ?s2] =>
      destruct (home_after_save_appends w up s2) as (l1 & E1 & _)
    end.
    intros E2. exists (l1 ++ l2). unfold added. rewrite E2, E1. cbn [trace].
    rewrite <- !app_assoc. by rewrite drop_app_length.
  - intros E2. unfold added. rewrite E2. cbn [trace].
    rewrite <- !app_assoc. rewrite drop_app_length. cbn.
    repeat (constructor; [reflexivity|]). exact F2.
  - intros E2. unfold added. rewrite E2. cbn [trace].
    rewrite <- !app_assoc. rewrite drop_app_length. cbn.
    repeat (constructor; [reflexivity|]). exact F2.
Qed.

Lemma home1_shape w s up :
  absent (Home1.OPENAI_API_KEY w) = false -> Home1.uploaded_file w = Some up ->
  let l := added s (snd (Home1.home1 w s)) in
  let pre0 := [StSetPageConfig (py "PDF Assistant");
               StTitle ([128196] ++ py " PDF Assistant");
               StFileUploader (py "Upload your PDF file");
               StSpinner (py "Processing uploaded file...");
               FsOpenWb (Home1.temp_path w up)] in
  match Home1.o_open w, Home1.o_write w with
  | Returns _, Returns _ =>
      exists rest, l = pre0 ++ FsWrite (Home1.temp_path w up) (getbuffer up) :: rest
  | _, _ => Forall (fun e => processing_event e = false) l
  end.
Proof.
  intros Hkey Hup l pre0. subst l. unfold Home1.home1, bind at 1.
  unfold Home1.before_upload, Home1.check_key, Home1.reset_flags. rewrite Hkey, Hup.
  unfold bind, get_session, emit, ret. cbn [session fs trace].
  destruct (initialized (session s)); cbn [put_session ret session fs trace].
  all: match goal with |- context [try_finally ?b (cleanup ?tp ?o) ?s0] =>
    destruct (finally_trace b tp o s0) as (l2 & E2 & F2)
  end.
  all: revert E2; unfold Home1.processing, open_write, bind, emit, put_fs, raise;
    cbn [session fs trace];
    destruct (Home1.o_open w) as [[]|e1]; [destruct (Home1.o_write w) as [[]|e2]|];
    cbn [session fs trace fst snd].
  all: try (match goal with |- context [Home1.after_save ?w0 ?up0 ?s2] =>
      destruct (home1_after_save_appends w0 up0 s2) as (l1 & E1 & _)
    end;
    intros E2; exists (l1 ++ l2); unfold added; rewrite E2, E1; cbn [trace];
    rewrite <- !app_assoc; by rewrite drop_app_length).
  all: intros E2; unfold added; rewrite E2; cbn [trace];
    rewrite <- !app_assoc; rewrite drop_app_length; cbn;
    repeat (constructor; [reflexivity|]); exact F2.
Qed.

(** Nothing but the clean-up removes what exists at a path. *)
Lemma keeps_ret {A} (p : pystr) (a : A) : keeps p (ret a).
Proof. by intros s H. Qed.

Lemma keeps_raise {A} (p : pystr) (e : exc) : keeps p (@raise A e).
Proof. by intros s H. Qed.

Lemma keeps_emit (p : pystr) (e : event) : keeps p (emit e).
Proof. by intros s H. Qed.

Lemma keeps_get_session (p : pystr) : keeps p get_session.
Proof. by intros s H. Qed.

Lemma keeps_put_session (p : pystr) (ss : session_state) : keeps p (put_session ss).
Proof. by intros s H. Qed.

Lemma keeps_bind {A B} (p : pystr) (m : M A) (k : A -> M B) :
  keeps p m -> (forall a, keeps p (k a)) -> keeps p (bind m k).
Proof.
  intros Hm Hk s H. unfold bind. specialize (Hm s H).
  destruct (m s) as [[a|e] s1]; cbn [snd] in *; [by apply Hk|done].
Qed.

Lemma keeps_try_except {A} (p : pystr) (body : M A) (catches : error -> bool)
    (handler : error -> M A) :
  keeps p body -> (forall e, keeps p (handler e)) ->
  keeps p (try_except body catches handler).
Proof.
  intros Hb Hh s H. unfold try_except. specialize (Hb s H).
  destruct (body s) as [[a|[|e]] s1]; cbn [snd] in *; try done.
  destruct (catches e); [by apply Hh|done].
Qed.

Lemma keeps_lib {A} (p : pystr) (c : call) (o : outcome A) : keeps p (lib c o).
Proof.
  unfold lib. apply keeps_bind; [apply keeps_emit|intros _].
  destruct o; [apply keeps_ret|apply keeps_raise].
Qed.

Lemma keeps_makedirs (p path : pystr) (o : outcome unit) : keeps p (makedirs path o).
Proof.
  intros s H. unfold makedirs, bind, emit, put_fs, raise.
  destruct o as [[]|e]; cbn; [|done]. apply lookup_insert_is_Some'. by right.
Qed.

Lemma keeps_show_each (p : pystr) (l : list message) : keeps p (show_each l).
Proof.
  induction l as [|m l IH]; cbn [show_each].
  - apply keeps_ret.
  - apply keeps_bind; [apply keeps_emit|by intros _].
Qed.

Ltac keeps_step :=
  lazymatch goal with
  | |- keeps _ (lib _ _) => apply keeps_lib
  | |- keeps _ (makedirs _ _) => apply keeps_makedirs
  | |- keeps _ (show_each _) => apply keeps_show_each
  | |- keeps _ (emit _) => apply keeps_emit
  | |- keeps _ (ret _) => apply keeps_ret
  | |- keeps _ (raise _) => apply keeps_raise
  | |- keeps _ get_session => apply keeps_get_session
  | |- keeps _ (put_session _) => apply keeps_put_session
  | |- keeps _ (try_except _ _ _) => apply keeps_try_except; [|intros ?]
  | |- keeps _ (bind _ _) => apply keeps_bind; [|intros ?]
  | |- keeps _ (match ?x with _ => _ end) => destruct x
  end.

Lemma home_after_save_keeps p w up : keeps p (Home.after_save w up).
Proof.
  unfold Home.after_save, Home.load_models, Home.init_flag, Home.init_rag_tool,
    Home.index_pdf, Home.answer, Home.question, init_messages, show_history,
    append_message, attribute_error, st_stop.
  repeat (keeps_step; cbv beta zeta).
Qed.

Lemma home1_after_save_keeps p w up : keeps p (Home1.after_save w up).
Proof.
  unfold Home1.after_save, Home1.load_and_split, Home1.init_embeddings,
    Home1.build_vectorstore, Home1.init_rag_tool, Home1.answer, Home1.question,
    Home1.retrieve, init_messages, show_history, append_message, attribute_error,
    st_stop.
  repeat (keeps_step; cbv beta zeta).
Qed.

Lemma home_after_save_no_file w up :
  emits (fun e => touches_file e = false) (Home.after_save w up).
Proof.
  unfold Home.after_save, Home.load_models, Home.init_flag, Home.init_rag_tool,
    Home.index_pdf, Home.answer, Home.question, init_messages, show_history,
    append_message, attribute_error, st_stop.
  emits_run.
Qed.

Lemma home1_after_save_no_file w up :
  emits (fun e => touches_file e = false) (Home1.after_save w up).
Proof.
  unfold Home1.after_save, Home1.load_and_split, Home1.init_embeddings,
    Home1.build_vectorstore, Home1.init_rag_tool, Home1.answer, Home1.question,
    Home1.retrieve, init_messages, show_history, append_message, attribute_error,
    st_stop.
  emits_run.
Qed.

(** Once the upload is written, the rest of the processing block starts
    with the bytes in the file. *)
Lemma saved_then (body : M unit) (tp : pystr) (data : list Byte.byte) (s : state) :
  (emit (StSpinner (py "Processing uploaded file...")) >>
   open_write tp data (Returns tt) (Returns tt) >> body) s =
  body (log (with_file s tp data)
          [StSpinner (py "Processing uploaded file..."); FsOpenWb tp; FsWrite tp data]).
Proof.
  unfold open_write, log, with_file. unfold bind, emit, put_fs.
  cbn [session fs trace]. by rewrite insert_insert_eq, <- !app_assoc.
Qed.

(** A block that saves the upload and then neither removes it nor touches
    another file ends, under the [finally] of the pages, with the removal of
    the file it saved. *)
Lemma saved_then_removed (body : M unit) (tp : pystr) (data : list Byte.byte)
    (o : outcome unit) (s : state) :
  emits (fun e => touches_file e = false) body -> keeps tp body ->
  let r := try_finally
             (emit (StSpinner (py "Processing uploaded file...")) >>
              open_write tp data (Returns tt) (Returns tt) >> body)
             (cleanup tp o) s in
  (exists mid,
     trace (snd r) =
       trace s ++ [StSpinner (py "Processing uploaded file..."); FsOpenWb tp;
                   FsWrite tp data] ++ mid ++ [FsRemove tp]
     /\ Forall (fun e => touches_file e = false) mid)
  /\ (is_returns o = true -> fs (snd r) !! tp = None)
  /\ (is_returns o = false -> is_Some (fs (snd r) !! tp)).
Proof.
  intros He Hk r. subst r.
  match goal with |- context [try_finally ?b _ _] =>
    destruct (finally_cleanup b tp o s) as (_ & _ & Hc & Hgone)
  end.
  rewrite saved_then in Hc.
  match type of Hc with context [body ?s1] =>
    destruct (He s1) as (mid & Et & Fm);
    assert (is_Some (fs (snd (body s1)) !! tp)) as [x Hx]
      by (apply Hk; cbn; rewrite lookup_insert_eq; eauto)
  end.
  rewrite Hx in Hc. destruct Hc as [Htr Hfs]. split; [|split].
  - exists mid. split; [|done]. rewrite Htr, Et. cbn [log trace with_file].
    by rewrite <- !app_assoc.
  - exact Hgone.
  - intros Hf. rewrite Hfs, Hf, Hx. eauto.
Qed.

(** C7. When a PDF is uploaded, the handler opens the temporary path and
    writes the upload's bytes to it before anything is done with the file:
    every library call and the creation of the vector store directory come
    after that write in the run, and the only path ever removed is that same
    temporary path.  When opening and writing succeed, everything after the
    save runs on a file system in which the temporary path holds the
    upload's bytes; the run then consists of the page's first widgets, the
    save, events that open, write or remove no file, and last the removal
    of the temporary path; after a removal that returns the path is gone,
    and after one that fails it is still there. *)
Theorem upload_saved_first :
  (forall w s up,
     absent (Home.GEMINI_API_KEY w) = false -> Home.uploaded_file w = Some up ->
     let l := added s (snd (Home.home w s)) in
     let tp := Home.temp_path up in
     let saved := FsWrite tp (getbuffer up) in
     (forall pre e post, l = pre ++ e :: post -> processing_event e = true ->
        saved ∈ pre)
     /\ (forall p, FsRemove p ∈ l -> p = tp)
     /\ (Home.o_open w = Returns tt -> Home.o_write w = Returns tt -> saved ∈ l)
     /\ (Home.o_open w = Returns tt -> Home.o_write w = Returns tt ->
         (forall s0,
            Home.processing w up s0 =
            Home.after_save w up
              (log (with_file s0 tp (getbuffer up))
                 [StSpinner (py "Processing uploaded file..."); FsOpenWb tp; saved]))
         /\ (exists mid,
               l = [StSetPageConfig (py "PDF Assistant");
                    StTitle ([128196] ++ py " PDF Assistant");
                    StFileUploader (py "Upload your PDF file");
                    StSpinner (py "Processing uploaded file...");
                    FsOpenWb tp; saved] ++ mid ++ [FsRemove tp]
               /\ Forall (fun e => touches_file e = false) mid)
         /\ (is_returns (Home.o_remove w) = true ->
             fs (snd (Home.home w s)) !! tp = None)
         /\ (is_returns (Home.o_remove w) = false ->
             is_Some (fs (snd (Home.home w s)) !! tp))))
  /\ (forall w s up,
     absent (Home1.OPENAI_API_KEY w) = false -> Home1.uploaded_file w = Some up ->
     let l := added s (snd (Home1.home1 w s)) in
     let tp := Home1.temp_path w up in
     let saved := FsWrite tp (getbuffer up) in
     (forall pre e post, l = pre ++ e :: post -> processing_event e = true ->
        saved ∈ pre)
     /\ (forall p, FsRemove p ∈ l -> p = tp)
     /\ (Home1.o_open w = Returns tt -> Home1.o_write w = Returns tt -> saved ∈ l)
     /\ (Home1.o_open w = Returns tt -> Home1.o_write w = Returns tt ->
         (forall s0,
            Home1.processing w up s0 =
            Home1.after_save w up
              (log (with_file s0 tp (getbuffer up))
                 [StSpinner (py "Processing uploaded file..."); FsOpenWb tp; saved]))
         /\ (exists mid,
               l = [StSetPageConfig (py "PDF Assistant");
                    StTitle ([128196] ++ py " PDF Assistant");
                    StFileUploader (py "Upload your PDF file");
                    StSpinner (py "Processing uploaded file...");
                    FsOpenWb tp; saved] ++ mid ++ [FsRemove tp]
               /\ Forall (fun e => touches_file e = false) mid)
         /\ (is_returns (Home1.o_remove w) = true ->
             fs (snd (Home1.home1 w s)) !! tp = None)
         /\ (is_returns (Home1.o_remove w) = false ->
             is_Some (fs (snd (Home1.home1 w s)) !! tp)))).
Proof.
  split; intros w s up Hkey Hup l tp saved.
  - pose proof (home_shape w s up Hkey Hup) as Hshape. cbv zeta in Hshape.
    fold l tp saved in Hshape. split; [|split; [|split]].
    + intros pre e post Heq He.
      destruct (Home.o_open w) as [[]|e1]; [destruct (Home.o_write w) as [[]|e2]|].
      * destruct Hshape as (rest & Hl). rewrite Hl in Heq.
        eapply preceded_by; [| |exact Heq|exact He]; [|reflexivity].
        repeat (constructor; [reflexivity|]). constructor.
      * destruct (no_processing l Hshape pre e post Heq He).
      * destruct (no_processing l Hshape pre e post Heq He).
    + intros p. apply removes_only_added. by apply home_removes_only.
    + intros Ho Hw. rewrite Ho, Hw in Hshape. destruct Hshape as (rest & ->).
      apply elem_of_app. right. left.
    + intros Ho Hw. split.
      { intros s0. unfold Home.processing. rewrite Ho, Hw. apply saved_then. }
      subst l. unfold Home.home, bind at 1, bind at 1.
      unfold Home.before_upload, Home.check_key. rewrite Hkey, Hup.
      unfold bind at 1. cbn [emit ret bind]. unfold Home.processing.
      rewrite Ho, Hw.
      match goal with |- context [try_finally ?b (cleanup ?p ?o) ?s0] =>
        destruct (saved_then_removed (Home.after_save w up) p (getbuffer up) o s0
                    (home_after_save_no_file w up) (home_after_save_keeps p w up))
          as ((mid & Et & Fm) & Hgone & Hstay)
      end.
      split; [|by split]. exists mid. split; [|done].
      unfold added. rewrite Et. cbn [trace]. rewrite <- !app_assoc.
      by rewrite drop_app_length.
  - pose proof (home1_shape w s up Hkey Hup) as Hshape. cbv zeta in Hshape.
    fold l tp saved in Hshape. split; [|split; [|split]].
    + intros pre e post Heq He.
      destruct (Home1.o_open w) as [[]|e1]; [destruct (Home1.o_write w) as [[]|e2]|].
      * destruct Hshape as (rest & Hl). rewrite Hl in Heq.
        eapply preceded_by; [| |exact Heq|exact He]; [|reflexivity].
        repeat (constructor; [reflexivity|]). constructor.
      * destruct (no_processing l Hshape pre e post Heq He).
      * destruct (no_processing l Hshape pre e post Heq He).
    + intros p. apply removes_only_added. by apply home1_removes_only.
    + intros Ho Hw. rewrite Ho, Hw in Hshape. destruct Hshape as (rest & ->).
      apply elem_of_app. right. left.
    + intros Ho Hw. split.
      { intros s0. unfold Home1.processing. rewrite Ho, Hw. apply saved_then. }
      subst l. unfold Home1.home1, bind at 1.
      unfold Home1.before_upload, Home1.check_key, Home1.reset_flags.
      rewrite Hkey, Hup. unfold bind, get_session, emit, ret. cbn [session fs trace].
      unfold Home1.processing. rewrite Ho, Hw. fold tp.
      destruct (initialized (session s)); cbn [put_session ret session fs trace];
        (match goal with |- context [try_finally ?b (cleanup ?p ?o) ?s0] =>
           destruct (saved_then_removed (Home1.after_save w up) p (getbuffer up) o s0
                       (home1_after_save_no_file w up) (home1_after_save_keeps p w up))
             as ((mid & Et & Fm) & Hgone & Hstay)
         end);
        (split; [|by split]); exists mid; (split; [|done]);
        unfold added; rewrite Et; cbn [trace]; rewrite <- !app_assoc;
        by rewrite drop_app_length.
Qed.

Lemma upload_saved_first_witness :
  FsWrite (py "temp_report.pdf") (getbuffer Samples.report)
    ∈ added Samples.fresh (snd (Home.home Samples.gemini_ok Samples.fresh))
  /\ fs (snd (Home.home Samples.gemini_ok Samples.fresh)) !! py "temp_report.pdf" = None
  /\ FsWrite (py "/tmp/temp_report.pdf") (getbuffer Samples.report)
    ∈ added Samples.fresh (snd (Home1.home1 Samples.openai_ok Samples.fresh))
  /\ fs (snd (Home1.home1 Samples.openai_ok Samples.fresh)) !! py "/tmp/temp_report.pdf"
     = None.
Proof.
  destruct (proj1 upload_saved_first Samples.gemini_ok Samples.fresh
              Samples.report eq_refl eq_refl) as (_ & _ & H1 & H2).
  destruct (proj2 upload_saved_first Samples.openai_ok Samples.fresh
              Samples.report eq_refl eq_refl) as (_ & _ & H3 & H4).
  split; [exact (H1 eq_refl eq_refl)|].
  split; [exact (proj1 (proj2 (proj2 (H2 eq_refl eq_refl))) eq_refl)|].
  split; [exact (H3 eq_refl eq_refl)|].
  exact (proj1 (proj2 (proj2 (H4 eq_refl eq_refl))) eq_refl).
Defined.

End SavedFirst.

(** ** Symbolic runs *)

Section SymbolicRuns.

Lemma show_each_run (l : list message) (s : state) :
  show_each l s =
  (Val tt, log s (List.map (fun m => StChatMessage (role m) (content m)) l)).
Proof.
  revert s. induction l as [|m l IH]; intros s.
  - cbn. unfold log. rewrite app_nil_r. by destruct s.
  - cbn [show_each]. unfold bind at 1. cbn [emit]. rewrite IH. unfold log. cbn.
    by rewrite <- app_assoc.
Qed.

Lemma history_no_add (l : list message) :
  existsb is_add (List.map (fun m => StChatMessage (role m) (content m)) l) = false.
Proof. induction l; cbn; auto. Qed.

Lemma no_add_elem (l : list event) :
  existsb is_add l = false <-> forall p, Lib (RagToolAdd p) ∉ l.
Proof.
  split.
  - intros H p Hin. apply list_elem_of_In in Hin.
    assert (existsb is_add l = true) as Ht
      by (apply existsb_exists; by exists (Lib (RagToolAdd p))).
    congruence.
  - intros H. destruct (existsb is_add l) eqn:E; [|done].
    apply existsb_exists in E as (e & Hin & He). apply list_elem_of_In in Hin.
    destruct e as [| | | | | | | | | | | | |[]]; try discriminate He.
    by destruct (H _ Hin).
Qed.

(** The file that was saved is still at its path, as a file or as a
    directory, after a directory was made. *)
Lemma lookup_covered {V : Type} {B : Type} (m : gmap pystr V) (k tp : pystr) (v d : V) (X Y : B) :
  match <[k:=v]> (<[tp:=d]> m) !! tp with Some _ => X | None => Y end = X.
Proof.
  destruct (decide (k = tp)) as [->|Hne].
  - by rewrite lookup_insert_eq.
  - by rewrite lookup_insert_ne, lookup_insert_eq.
Qed.

End SymbolicRuns.

(** One step of a symbolic run: a history replay, a lookup of the file just
    written (under the directory made after it, if any), or a case split on
    what the run reads next. *)
Ltac run_step :=
  match goal with
  | |- context [show_each ?l ?s] => rewrite (show_each_run l s); unfold log
  | |- context [match <[?k:=?v]> (<[?tp:=?d]> ?m) !! ?tp with
                | Some _ => ?X | None => ?Y end] =>
      rewrite (lookup_covered m k tp v d X Y)
  | |- context [<[?k:=?v]> ?m !! ?k] => rewrite (lookup_insert_eq m k v)
  | |- context [match ?x with _ => _ end] =>
      match x with
      | context [match _ with _ => _ end] => fail 1
      | _ => destruct x eqn:?
      end
  end.

Ltac run_script := cbn -[py app]; repeat (run_step; cbn -[py app] in * ).

Ltac unfold_run :=
  unfold open_write, makedirs, cleanup, init_messages, show_history,
    append_message, attribute_error, try_finally, try_except, lib, bind, emit,
    ret, raise, st_stop, get_session, put_session, put_fs.

Ltac unfold_home :=
  unfold Home.home, Home.before_upload, Home.check_key, Home.processing,
    Home.after_save, Home.load_models, Home.init_flag, Home.init_rag_tool,
    Home.index_pdf, Home.answer, Home.question; unfold_run.

(** The events added, once the final trace is known. *)
Ltac added_events :=
  unfold added; cbn [trace]; rewrite <- ?app_assoc;
  first [rewrite drop_app_length | rewrite drop_all].

Ltac count_adds :=
  repeat (cbn [app existsb is_add orb]; rewrite ?existsb_app, ?history_no_add).

(** ** The PDF is indexed at most once per session ([home.py]) *)

Section IndexedOnce.

Lemma home_appends w : emits (fun _ => True) (Home.home w).
Proof.
  unfold Home.home, Home.before_upload, Home.check_key, Home.processing,
    Home.after_save, Home.load_models, Home.init_flag, Home.init_rag_tool,
    Home.index_pdf, Home.answer, Home.question, init_messages, show_history, append_message,
    attribute_error, st_stop.
  emits_run.
Qed.

Lemma added_trans (s s1 s2 : state) (l1 l2 : list event) :
  trace s1 = trace s ++ l1 -> trace s2 = trace s1 ++ l2 ->
  added s s2 = added s s1 ++ added s1 s2.
Proof.
  intros E1 E2. unfold added. rewrite E2, drop_app_length, E1.
  by rewrite <- app_assoc, !drop_app_length.
Qed.

(** Once the flag is set, a run keeps it and does not index. *)
Lemma flag_kept w s :
  vector_db_initialized (session s) = Some true ->
  vector_db_initialized (session (snd (Home.home w s))) = Some true
  /\ existsb is_add (added s (snd (Home.home w s))) = false.
Proof.
  destruct w, s as [[flag msgs ini] fs0 tr]. cbn. intros ->.
  unfold_home. run_script.
  all: split; [reflexivity|added_events; count_adds; reflexivity].
Qed.

(** A run in which [rag_tool.add] was called and returned leaves the flag
    set. *)
Lemma flag_set w s :
  existsb is_add (added s (snd (Home.home w s))) = true ->
  is_returns (Home.o_add w) = true ->
  vector_db_initialized (session (snd (Home.home w s))) = Some true.
Proof.
  destruct w, s as [[flag msgs ini] fs0 tr]. cbn [Home.o_add].
  intros Hadd Hret. destruct o_add as [[]|e]; [clear Hret|discriminate Hret].
  revert Hadd. unfold_home. run_script.
  all: try reflexivity.
  all: added_events; count_adds; discriminate.
Qed.

Lemma reruns_flag_kept ws s :
  vector_db_initialized (session s) = Some true ->
  vector_db_initialized (session (Home.reruns ws s)) = Some true
  /\ existsb is_add (added s (Home.reruns ws s)) = false
  /\ exists l, trace (Home.reruns ws s) = trace s ++ l.
Proof.
  revert s. induction ws as [|w ws IH]; intros s Hflag; cbn [Home.reruns].
  - split; [done|]. unfold added. rewrite drop_all. split; [done|].
    exists []. by rewrite app_nil_r.
  - destruct (flag_kept w s Hflag) as [Hflag1 Hno1].
    destruct (IH _ Hflag1) as (Hflag2 & Hno2 & l2 & E2).
    destruct (home_appends w s) as (l1 & E1 & _).
    split; [done|]. split.
    + rewrite (added_trans s _ _ l1 l2 E1 E2), existsb_app, Hno1, Hno2. done.
    + exists (l1 ++ l2). by rewrite E2, E1, app_assoc.
Qed.

Lemma successful_adds_after ws s :
  vector_db_initialized (session s) = Some true -> Home.successful_adds ws s = 0%nat.
Proof.
  revert s. induction ws as [|w ws IH]; intros s Hflag; cbn [Home.successful_adds].
  - done.
  - destruct (flag_kept w s Hflag) as [Hflag1 Hno1].
    unfold Home.indexed. rewrite Hno1, (IH _ Hflag1). done.
Qed.

(** C8. On the Gemini-backed page [rag_tool.add] is called only when the
    session flag is [False], and on the upload's temporary path; when the
    call returns, the flag is set to [True] at once; a run that starts with
    the flag set keeps it and does not index, so no rerun of the session
    indexes again, and over any sequence of reruns at most one run has a
    successful [add]. *)
Theorem indexed_once :
  (forall w tp s p,
     Lib (RagToolAdd p) ∈ added s (snd (Home.index_pdf w tp s)) ->
     p = tp /\ vector_db_initialized (session s) = Some false)
  /\ (forall w tp s,
     vector_db_initialized (session s) = Some false ->
     Home.o_add w = Returns tt ->
     Home.index_pdf w tp s =
       (Val tt,
        {| session := set_vector_db_initialized (Some true) (session s);
           fs := fs s;
           trace := trace s ++ [StSpinner (py "Loading PDF into vector database...");
                                Lib (RagToolAdd tp)] |}))
  /\ (forall w s,
     vector_db_initialized (session s) = Some true ->
     vector_db_initialized (session (snd (Home.home w s))) = Some true
     /\ forall p, Lib (RagToolAdd p) ∉ added s (snd (Home.home w s)))
  /\ (forall ws s,
     vector_db_initialized (session s) = Some true ->
     forall p, Lib (RagToolAdd p) ∉ added s (Home.reruns ws s))
  /\ (forall ws s, (Home.successful_adds ws s <= 1)%nat).
Proof.
  repeat split.
  - revert H. destruct s as [[flag msgs ini] fs0 tr].
    unfold Home.index_pdf; unfold_run. run_script.
    all: added_events; cbn [app]; rewrite ?elem_of_cons, ?elem_of_nil;
      intros H; intuition congruence.
  - revert H. destruct s as [[flag msgs ini] fs0 tr].
    unfold Home.index_pdf; unfold_run. run_script.
    all: added_events; cbn [app]; rewrite ?elem_of_cons, ?elem_of_nil;
      intros H; intuition congruence.
  - intros w tp [[flag msgs ini] fs0 tr]. cbn. intros -> ->.
    unfold Home.index_pdf; unfold_run. cbn. by rewrite <- app_assoc.
  - by apply flag_kept.
  - apply no_add_elem. by apply flag_kept.
  - intros ws s Hflag. apply no_add_elem. by apply reruns_flag_kept.
  - intros ws. induction ws as [|w ws IH]; intros s; cbn [Home.successful_adds].
    + lia.
    + destruct (Home.indexed w s) eqn:Hi.
      * unfold Home.indexed in Hi. apply andb_true_iff in Hi as [Hadd Hret].
        rewrite successful_adds_after; [lia|]. by apply flag_set.
      * specialize (IH (snd (Home.home w s))). lia.
Qed.

Lemma indexed_once_witness :
  vector_db_initialized
    (session (snd (Home.index_pdf Samples.gemini_ok (py "temp_report.pdf")
       (snd (Home.init_flag Samples.fresh))))) = Some true
  /\ forall p, Lib (RagToolAdd p) ∉
       added (snd (Home.home Samples.gemini_ok Samples.fresh))
         (Home.reruns [Samples.gemini_ok; Samples.gemini_ok]
            (snd (Home.home Samples.gemini_ok Samples.fresh))).
Proof.
  split.
  - exact (f_equal (fun r => vector_db_initialized (session (snd r)))
             (proj1 (proj2 indexed_once) Samples.gemini_ok (py "temp_report.pdf")
                (snd (Home.init_flag Samples.fresh)) eq_refl eq_refl)).
  - exact (proj1 (proj2 (proj2 (proj2 indexed_once)))
             [Samples.gemini_ok; Samples.gemini_ok]
             (snd (Home.home Samples.gemini_ok Samples.fresh)) eq_refl).
Defined.

End IndexedOnce.

(** ** Strings: [strip], [rsplit], [join] *)

Section Strings.

Lemma lstrip_app_nonspace (u v : pystr) (c : N) :
  isspace c = false -> lstrip (u ++ c :: v) = lstrip u ++ c :: v.
Proof.
  intros Hc. induction u as [|a u IH]; cbn [lstrip app].
  - by rewrite Hc.
  - by destruct (isspace a).
Qed.

Lemma rstrip_app_nonspace (a b : pystr) (c : N) :
  isspace c = false -> rstrip (a ++ c :: b) = a ++ c :: rstrip b.
Proof.
  intros Hc. unfold rstrip. rewrite rev_app_distr. cbn [rev].
  rewrite <- app_assoc. cbn [app]. rewrite lstrip_app_nonspace by done.
  rewrite rev_app_distr. cbn [rev]. rewrite rev_involutive, <- app_assoc. done.
Qed.

Lemma lstrip_shape (s : pystr) :
  lstrip s = [] \/ exists c r, lstrip s = c :: r /\ isspace c = false.
Proof.
  induction s as [|a s IH]; cbn [lstrip]; [by left|].
  destruct (isspace a) eqn:Ha; [done|]. right. by exists a, s.
Qed.

(** A stripped string is empty or ends with a character that is no space. *)
Lemma rstrip_shape (s : pystr) :
  rstrip s = [] \/ exists u c, rstrip s = u ++ [c] /\ isspace c = false.
Proof.
  unfold rstrip. destruct (lstrip_shape (rev s)) as [->|(c & r & -> & Hc)].
  - by left.
  - right. exists (rev r), c. by cbn [rev].
Qed.

Lemma before_last_notin (sep : N) (s : pystr) :
  before_last sep s = None <-> sep ∉ s.
Proof.
  induction s as [|a s IH]; cbn [before_last].
  - split; [intros _; apply not_elem_of_nil|done].
  - rewrite not_elem_of_cons. destruct (before_last sep s) eqn:E.
    + split; [done|]. intros [_ H]. apply IH in H. done.
    + destruct (N.eqb_spec a sep) as [->|Hne]; split; try done.
      * by intros [].
      * intros _. split; [done|]. by apply IH.
Qed.

Lemma before_last_found (sep : N) (pre post : pystr) :
  sep ∉ post -> before_last sep (pre ++ sep :: post) = Some pre.
Proof.
  intros Hpost. induction pre as [|a pre IH]; cbn [before_last app].
  - apply before_last_notin in Hpost. by rewrite Hpost, N.eqb_refl.
  - by rewrite IH.
Qed.

Lemma before_last_split (sep : N) (s p : pystr) :
  before_last sep s = Some p -> exists post, s = p ++ sep :: post /\ sep ∉ post.
Proof.
  revert p. induction s as [|a s IH]; intros p; cbn [before_last]; [done|].
  destruct (before_last sep s) as [p'|] eqn:E.
  - intros [= <-]. destruct (IH p' eq_refl) as (post & Hs & Hn).
    exists post. by rewrite Hs at 1.
  - apply before_last_notin in E. destruct (N.eqb_spec a sep) as [->|Hne]; [|done].
    intros [= <-]. by exists s.
Qed.

Lemma rsplit1_head_length (sep : N) (s : pystr) :
  (length (rsplit1_head sep s) <= length s)%nat.
Proof.
  unfold rsplit1_head. destruct (before_last sep s) as [p|] eqn:E; [|lia].
  apply before_last_split in E as (post & -> & _). rewrite length_app. lia.
Qed.



End Strings.

(** ** Context block and prompt ([home1.py]) *)

Section Prompt.
Import Home1.


Lemma snippet_length (d : Document) : (length (snippet d) <= 1001)%nat.
Proof.
  unfold snippet. destruct (Nat.ltb_spec 1000 (length (cleaned d))); [|lia].
  rewrite length_app. cbn [length ellipsis].
  pose proof (rsplit1_head_length space (slice_to 1000 (cleaned d))) as H1.
  unfold slice_to in *. rewrite length_take in H1. lia.
Qed.

Lemma context_parts_from_length (i : nat) (docs : list Document) :
  length (context_parts_from i docs) = length docs.
Proof. revert i. induction docs as [|d docs IH]; intros i; cbn; auto. Qed.









Lemma retrieve_bound w q s docs s1 :
  (forall l, o_similarity_search w = Returns l -> (length l <= 5)%nat) ->
  (forall l, o_similarity_search_with_score w = Returns l -> (length l <= 5)%nat) ->
  retrieve w q s = (Val docs, s1) -> (length docs <= 5)%nat.
Proof.
  intros H1 H2. unfold retrieve, try_except, lib, bind, emit, ret, raise.
  destruct (has_get_relevant_documents w).
  - destruct (o_get_relevant_documents w) as [found|e]; [|done].
    intros [= <- _]. rewrite length_take. lia.
  - destruct (o_similarity_search w) as [found|e] eqn:E1.
    + intros [= <- _]. by apply H1.
    + cbn [any_Exception].
      destruct (o_similarity_search_with_score w) as [found|e'] eqn:E2; [|done].
      intros [= <- _]. rewrite length_map. by apply H2.
Qed.




(** C9, as stated, fails: a cleaned snippet of 1200 characters without a
    space is longer than 1000 characters, yet it is not cut at any space; it
    is cut after its first 1000 characters. *)
Lemma snippet_cut_counterexample :
  (1000 < length (cleaned Samples.unbroken))%nat
  /\ snippet Samples.unbroken = List.repeat 120 1000 ++ ellipsis
  /\ ~ (exists pre post,
          slice_to 1000 (cleaned Samples.unbroken) = pre ++ space :: post
          /\ snippet Samples.unbroken = pre ++ ellipsis).
Proof.
  split; [apply Nat.ltb_lt; by vm_compute|].
  split; [by vm_compute|].
  intros (pre & post & Hcut & _).
  assert (slice_to 1000 (cleaned Samples.unbroken) = List.repeat 120 1000) as E
    by (by vm_compute).
  rewrite E in Hcut.
  assert (In space (List.repeat 120 1000)) as Hin
    by (rewrite Hcut; apply in_or_app; right; by left).
  apply repeat_spec in Hin. discriminate Hin.
Qed.

(** C9, amended. The context holds at most five parts -- the first five
    results of [get_relevant_documents], or what a search with [k = 5]
    returns, the vector store honouring [k] -- and every snippet has at most
    1001 characters: a cleaned text of at most 1000 characters is kept, a
    longer one is cut back to the last space within its first 1000
    characters when there is one, and to its first 1000 characters
    otherwise, and then suffixed with the ellipsis. *)
Theorem context_bounds :
  (forall w q s docs s1,
     (forall l, o_similarity_search w = Returns l -> (length l <= 5)%nat) ->
     (forall l, o_similarity_search_with_score w = Returns l -> (length l <= 5)%nat) ->
     retrieve w q s = (Val docs, s1) ->
     (length (context_parts docs) <= 5)%nat)
  /\ (forall d, (length (snippet d) <= 1001)%nat)
  /\ (forall d, (length (cleaned d) <= 1000)%nat -> snippet d = cleaned d)
  /\ (forall d pre post,
        (1000 < length (cleaned d))%nat ->
        slice_to 1000 (cleaned d) = pre ++ space :: post -> space ∉ post ->
        snippet d = pre ++ ellipsis)
  /\ (forall d,
        (1000 < length (cleaned d))%nat -> space ∉ slice_to 1000 (cleaned d) ->
        snippet d = slice_to 1000 (cleaned d) ++ ellipsis).
Proof.
  repeat split.
  - intros w q s docs s1 H1 H2 Hr. unfold context_parts.
    rewrite context_parts_from_length. by eapply retrieve_bound.
  - apply snippet_length.
  - intros d Hlen. unfold snippet.
    destruct (Nat.ltb_spec 1000 (length (cleaned d))); [lia|done].
  - intros d pre post Hlen Hcut Hpost. unfold snippet.
    destruct (Nat.ltb_spec 1000 (length (cleaned d))); [|lia].
    unfold rsplit1_head. by rewrite Hcut, before_last_found.
  - intros d Hlen Hno. unfold snippet.
    destruct (Nat.ltb_spec 1000 (length (cleaned d))); [|lia].
    unfold rsplit1_head. apply before_last_notin in Hno. by rewrite Hno.
Qed.

Lemma context_bounds_witness :
  snippet Samples.long_doc = py "alpha beta" ++ ellipsis
  /\ (length (context_parts [Samples.page3; Samples.long_doc]) <= 5)%nat.
Proof.
  split.
  - apply (proj1 (proj2 (proj2 (proj2 context_bounds))) Samples.long_doc
             (py "alpha beta") (List.repeat 120 989)).
    + apply Nat.ltb_lt. by vm_compute.
    + by vm_compute.
    + intros Hin. apply list_elem_of_In, repeat_spec in Hin. discriminate Hin.
  - apply (proj1 context_bounds
             (Samples.openai (Some (py "o-key")) false
                (Returns [Samples.page3; Samples.long_doc]) (Returns []))
             (py "What is the total?") Samples.fresh
             [Samples.page3; Samples.long_doc]
             (log Samples.fresh [Lib (SimilaritySearch (py "What is the total?") 5)])).
    + intros l [= <-]. cbn. lia.
    + intros l H. discriminate H.
    + reflexivity.
Defined.




End Prompt.

(** ** Errors at the library call sites *)

Section Errors.

Ltac unfold_home1 :=
  unfold Home1.home1, Home1.before_upload, Home1.check_key, Home1.reset_flags,
    Home1.processing, Home1.after_save, Home1.load_and_split,
    Home1.init_embeddings, Home1.build_vectorstore, Home1.init_rag_tool,
    Home1.answer, Home1.question, Home1.retrieve; unfold_run.

(** When the calls made outside any handler return, a run of [home1.py]
    never ends with an error. *)
Lemma home1_no_error w s e :
  is_returns (Home1.o_open w) && is_returns (Home1.o_write w)
  && is_returns (Home1.o_loader w) && is_returns (Home1.o_load w)
  && is_returns (Home1.o_split w) && is_returns (Home1.o_as_retriever w)
  && is_returns (Home1.o_agent w) = true ->
  fst (Home1.home1 w s) ≠ Exc (Error e).
Proof.
  destruct w, s as [[flag msgs ini] fs0 tr]. cbn -[is_returns].
  destruct o_open as [[]|]; [|done]. destruct o_write as [[]|]; [|done].
  destruct o_loader as [[]|]; [|done]. destruct o_load; [|done].
  destruct o_split; [|done]. destruct o_as_retriever as [[]|]; [|done].
  destruct o_agent as [[]|]; [|done]. intros _.
  unfold_home1. run_script.
  all: discriminate.
Qed.


(** When the calls outside any handler return and the models raise nothing
    but [DefaultCredentialsError], a run of [home.py] never ends with an
    error. *)
Lemma home_no_error w s e :
  is_returns (Home.o_open w) && is_returns (Home.o_write w)
  && is_returns (Home.o_makedirs w) && is_returns (Home.o_agent w)
  && credentials_only (Home.o_embeddings w) && credentials_only (Home.o_llm w)
  = true ->
  fst (Home.home w s) ≠ Exc (Error e).
Proof.
  destruct w, s as [[flag msgs ini] fs0 tr]. cbn -[is_returns credentials_only].
  destruct o_open as [[]|]; [|done]. destruct o_write as [[]|]; [|done].
  destruct o_makedirs as [[]|]; [|done]. destruct o_agent as [[]|]; [|done].
  cbn [is_returns andb]. intros Hcred. apply andb_true_iff in Hcred as [H1 H2].
  revert H1 H2. unfold credentials_only.
  unfold_home. run_script.
  all: intros; try discriminate; congruence.
Qed.

Ltac fragment :=
  intros; unfold shown, log;
  unfold Home1.init_embeddings, Home1.build_vectorstore, Home1.init_rag_tool,
    Home1.question, Home1.retrieve, Home.load_models, Home.init_rag_tool,
    Home.index_pdf, Home.question;
  unfold_run;
  repeat match goal with H : _ = _ |- _ => rewrite H; clear H end;
  cbn -[py app]; rewrite <- ?app_assoc; try reflexivity.

(** C5, as stated, fails: on the Gemini-backed page an error raised by the
    embedding model that is no [DefaultCredentialsError] is not caught; the
    run ends with that error and shows no message for it. *)
Lemma uncaught_model_error_counterexample :
  Home.o_embeddings Samples.gemini_bad_model = Raises Samples.boom
  /\ fst (Home.home Samples.gemini_bad_model Samples.fresh) = Exc (Error Samples.boom)
  /\ existsb is_message
       (trace (snd (Home.home Samples.gemini_bad_model Samples.fresh))) = false.
Proof. repeat split; by vm_compute. Qed.

(** C5, amended. Every error raised at a guarded call site is caught there
    and shown once, with its text, and the fragment ends normally or by
    [st.stop()]; the handler changes neither the session nor a file, and a
    vector store directory made before the index build failed stays.  On
    the OpenAI-backed page the guarded sites are the embedding model, the
    vector store directory and index, the RAG tool (a warning, and the run
    goes on without the tool), retrieval, and the task, crew and agent run,
    whichever way the chunks were retrieved; a failing [similarity_search]
    is swallowed without a message and [similarity_search_with_score] is
    called once in its place, its documents being the chunks.  On the
    Gemini-backed page they are the RAG tool, the indexing of the PDF, and
    the task, crew and agent run; at the two models only
    [DefaultCredentialsError] is caught, any other error leaves the fragment
    as it is, with no message.  No call is made twice.  When the calls
    outside the handlers return, no run ends with an error. *)
Theorem errors_surface :
  (forall w s e,
     Home1.o_embeddings w = Raises e ->
     shown (Home1.init_embeddings w) s (Exc StopException)
       [Lib (OpenAIEmbeddings (default [] (Home1.OPENAI_API_KEY w)));
        StError (py "Failed to initialize OpenAI embeddings: " ++ msg e)])
  /\ (forall w docs s e,
     Home1.o_makedirs w = Raises e ->
     shown (Home1.build_vectorstore w docs) s (Exc StopException)
       [FsMakedirs (Home1.vector_db_path w);
        StError (py "Failed to build vector store: " ++ msg e)])
  /\ (forall w docs s e,
     Home1.o_makedirs w = Returns tt -> Home1.o_from_documents w = Raises e ->
     Home1.build_vectorstore w docs s =
       (Exc StopException,
        log (with_dir s (Home1.vector_db_path w))
          [FsMakedirs (Home1.vector_db_path w); Lib (FaissFromDocuments docs);
           StError (py "Failed to build vector store: " ++ msg e)]))
  /\ (forall w s e,
     Home1.o_rag_tool w = Raises e ->
     shown (Home1.init_rag_tool w) s (Val false)
       [Lib (RagToolInit (Home1.vector_db_path w));
        StWarning (py "RagTool init failed (will still use retriever): " ++ msg e)])
  /\ (forall w up q s e,
     Home1.has_get_relevant_documents w = true ->
     Home1.o_get_relevant_documents w = Raises e ->
     shown (Home1.question w up q) s (Val tt)
       [Lib (GetRelevantDocuments q);
        StError (py "Error processing question: " ++ msg e)])
  /\ (forall w up q s e1 e2,
     Home1.has_get_relevant_documents w = false ->
     Home1.o_similarity_search w = Raises e1 ->
     Home1.o_similarity_search_with_score w = Raises e2 ->
     shown (Home1.question w up q) s (Val tt)
       [Lib (SimilaritySearch q 5); Lib (SimilaritySearchWithScore q 5);
        StError (py "Error processing question: " ++ msg e2)])
  /\ (forall w up q s docs e,
     Home1.has_get_relevant_documents w = true ->
     Home1.o_get_relevant_documents w = Returns docs ->
     Home1.o_task w = Returns tt -> Home1.o_crew w = Returns tt ->
     Home1.o_kickoff w = Raises e ->
     shown (Home1.question w up q) s (Val tt)
       [Lib (GetRelevantDocuments q);
        Lib (TaskInit
               (Home1.task_description
                  (Home1.context_text (Home1.context_parts (firstn 5 docs))) q)
               (py "Answer and cite sources (from " ++ upload_name up ++ py ")"));
        Lib CrewInit; Lib CrewKickoff;
        StError (py "Error processing question: " ++ msg e)])
  /\ (forall w s e,
     is_returns (Home1.o_open w) && is_returns (Home1.o_write w)
     && is_returns (Home1.o_loader w) && is_returns (Home1.o_load w)
     && is_returns (Home1.o_split w) && is_returns (Home1.o_as_retriever w)
     && is_returns (Home1.o_agent w) = true ->
     fst (Home1.home1 w s) ≠ Exc (Error e))
  /\ (forall w s e,
     Home.o_embeddings w = Raises e ->
     shown (Home.load_models w) s
       (if is_DefaultCredentialsError e then Exc StopException else Exc (Error e))
       (Lib (GoogleGenerativeAIEmbeddings (default [] (Home.GEMINI_API_KEY w)))
        :: if is_DefaultCredentialsError e then [StError Home.adc_error] else []))
  /\ (forall w s e,
     Home.o_rag_tool w = Raises e ->
     shown (Home.init_rag_tool w) s (Exc StopException)
       [Lib (RagToolInit Home.vector_db_path);
        StError (py "Failed to initialize RAG tool: " ++ msg e)])
  /\ (forall w tp s e,
     vector_db_initialized (session s) = Some false ->
     Home.o_add w = Raises e ->
     shown (Home.index_pdf w tp) s (Exc StopException)
       [StSpinner (py "Loading PDF into vector database...");
        Lib (RagToolAdd tp);
        StError (py "Error loading PDF: " ++ msg e)])
  /\ (forall w up q s e,
     Home.o_task w = Returns tt -> Home.o_crew w = Returns tt ->
     Home.o_kickoff w = Raises e ->
     shown (Home.question w up q) s (Val tt)
       [Lib (TaskInit q (py "Answer based on the content of " ++ upload_name up));
        Lib CrewInit; Lib CrewKickoff;
        StError (py "Error processing your question: " ++ msg e)])
  /\ (forall w s e,
     is_returns (Home.o_open w) && is_returns (Home.o_write w)
     && is_returns (Home.o_makedirs w) && is_returns (Home.o_agent w)
     && credentials_only (Home.o_embeddings w) && credentials_only (Home.o_llm w)
     = true ->
     fst (Home.home w s) ≠ Exc (Error e))
  /\ (forall w s e,
     Home.o_embeddings w = Returns tt -> Home.o_llm w = Raises e ->
     shown (Home.load_models w) s
       (if is_DefaultCredentialsError e then Exc StopException else Exc (Error e))
       (Lib (GoogleGenerativeAIEmbeddings (default [] (Home.GEMINI_API_KEY w)))
        :: Lib (ChatGoogleGenerativeAI (default [] (Home.GEMINI_API_KEY w)))
        :: if is_DefaultCredentialsError e then [StError Home.adc_error] else []))
  /\ (forall w up q s e,
     Home.o_task w = Raises e ->
     shown (Home.question w up q) s (Val tt)
       [Lib (TaskInit q (py "Answer based on the content of " ++ upload_name up));
        StError (py "Error processing your question: " ++ msg e)])
  /\ (forall w up q s e,
     Home.o_task w = Returns tt -> Home.o_crew w = Raises e ->
     shown (Home.question w up q) s (Val tt)
       [Lib (TaskInit q (py "Answer based on the content of " ++ upload_name up));
        Lib CrewInit;
        StError (py "Error processing your question: " ++ msg e)])
  /\ (forall w q s found,
     Home1.has_get_relevant_documents w = true ->
     Home1.o_get_relevant_documents w = Returns found ->
     shown (Home1.retrieve w q) s (Val (firstn 5 found)) [Lib (GetRelevantDocuments q)])
  /\ (forall w q s found,
     Home1.has_get_relevant_documents w = false ->
     Home1.o_similarity_search w = Returns found ->
     shown (Home1.retrieve w q) s (Val found) [Lib (SimilaritySearch q 5)])
  /\ (forall w q s e scored,
     Home1.has_get_relevant_documents w = false ->
     Home1.o_similarity_search w = Raises e ->
     Home1.o_similarity_search_with_score w = Returns scored ->
     shown (Home1.retrieve w q) s (Val (List.map fst scored))
       [Lib (SimilaritySearch q 5); Lib (SimilaritySearchWithScore q 5)])
  /\ (forall w up q s docs l e,
     shown (Home1.retrieve w q) s (Val docs) l ->
     let task :=
       Lib (TaskInit
              (Home1.task_description (Home1.context_text (Home1.context_parts docs)) q)
              (py "Answer and cite sources (from " ++ upload_name up ++ py ")")) in
     let error := StError (py "Error processing question: " ++ msg e) in
     (Home1.o_task w = Raises e ->
      shown (Home1.question w up q) s (Val tt) (l ++ [task; error]))
     /\ (Home1.o_task w = Returns tt -> Home1.o_crew w = Raises e ->
      shown (Home1.question w up q) s (Val tt) (l ++ [task; Lib CrewInit; error]))
     /\ (Home1.o_task w = Returns tt -> Home1.o_crew w = Returns tt ->
      Home1.o_kickoff w = Raises e ->
      shown (Home1.question w up q) s (Val tt)
        (l ++ [task; Lib CrewInit; Lib CrewKickoff; error]))).
Proof.
  split; [fragment|]. split; [fragment|].
  split.
  { intros w docs s e H1 H2.
    unfold log, with_dir, Home1.build_vectorstore. unfold_run.
    rewrite H1, H2. cbn -[py app]. by rewrite <- ?app_assoc. }
  split; [fragment|].
  split; [fragment|]. split; [fragment|]. split; [fragment|].
  split; [intros; by apply home1_no_error|].
  split; [fragment; destruct e as [[] m]; cbn; by rewrite <- ?app_assoc|].
  split; [fragment|].
  split.
  { intros w tp [[flag msgs ini] fs0 tr] e. cbn [session vector_db_initialized].
    intros -> He. unfold shown, log, Home.index_pdf. unfold_run. rewrite He.
    cbn -[py app]. by rewrite <- ?app_assoc. }
  split; [fragment|].
  split; [intros; by apply home_no_error|].
  split; [fragment; destruct e as [[] m]; cbn; by rewrite <- ?app_assoc|].
  split; [fragment|]. split; [fragment|].
  split; [fragment|]. split; [fragment|]. split; [fragment|].
  intros w up q s docs l e Hr task error. subst task error.
  unfold shown in Hr.
  repeat split; intros; unfold shown, Home1.question, try_except, bind at 1;
    rewrite Hr; unfold log; unfold_run;
    repeat match goal with H : _ = _ |- _ => rewrite H; clear H end;
    cbn -[py app]; by rewrite <- ?app_assoc.
Qed.

Lemma errors_surface_witness :
  shown (Home1.question
           (Samples.openai (Some (py "o-key")) true (Returns [Samples.page3])
              (Raises Samples.boom))
           Samples.report (py "What is the total?"))
    Samples.fresh (Val tt)
    [Lib (GetRelevantDocuments (py "What is the total?"));
     Lib (TaskInit
            (Home1.task_description
               (Home1.context_text (Home1.context_parts (firstn 5 [Samples.page3])))
               (py "What is the total?"))
            (py "Answer and cite sources (from " ++ upload_name Samples.report
             ++ py ")"));
     Lib CrewInit; Lib CrewKickoff;
     StError (py "Error processing question: " ++ msg Samples.boom)]
  /\ shown (Home.load_models Samples.gemini_bad_model) Samples.fresh
       (Exc (Error Samples.boom))
       [Lib (GoogleGenerativeAIEmbeddings (py "g-key"))].
Proof.
  split.
  - exact (proj1 (proj2 (proj2 (proj2 (proj2 (proj2 (proj2 errors_surface))))))
             (Samples.openai (Some (py "o-key")) true (Returns [Samples.page3])
                (Raises Samples.boom))
             Samples.report (py "What is the total?") Samples.fresh
             [Samples.page3] Samples.boom eq_refl eq_refl eq_refl eq_refl eq_refl).
  - exact (proj1 (proj2 (proj2 (proj2 (proj2 (proj2 (proj2 (proj2 (proj2
             errors_surface))))))))
             Samples.gemini_bad_model Samples.fresh Samples.boom eq_refl).
Defined.

End Errors.

(** * Further properties *)

(** ** Role filtering *)

Section MoreLogin.
Import Conf Login LoginScript.

Lemma filter_sublist {A} (f : A -> bool) (l : list A) : List.filter f l `sublist_of` l.
Proof.
  induction l as [|a l IH]; cbn; [constructor|].
  destruct (f a); by constructor.
Qed.

(** The accessible applications are configured applications, in the
    configured order; without a role list there is none. *)
Theorem accessible_apps_sublist (user_role : option (list pystr)) (apps : list App) :
  accessible_apps user_role apps `sublist_of` apps
  /\ accessible_apps None apps = []
  /\ accessible_apps (Some []) apps = [].
Proof.
  split; [|split; [done|]].
  - destruct user_role as [roles|]; cbn; [|apply sublist_nil_l].
    case_bool_decide; [done|apply filter_sublist].
  - destruct (accessible_apps (Some []) apps) as [|a l] eqn:E; [done|].
    assert (a ∈ accessible_apps (Some []) apps) as Hin by (rewrite E; left).
    apply accessible_apps_elem in Hin as [_ [Hadm|(r & Hr & _)]].
    + by apply elem_of_nil in Hadm.
    + by apply elem_of_nil in Hr.
Qed.

(** More roles never take an application away. *)
Theorem accessible_apps_mono (roles roles' : list pystr) (apps : list App) (app : App) :
  (forall r, r ∈ roles -> r ∈ roles') ->
  app ∈ accessible_apps (Some roles) apps ->
  app ∈ accessible_apps (Some roles') apps.
Proof.
  intros Hsub. rewrite !accessible_apps_elem.
  intros [Happ [Hadm|(r & Hr & Ha)]]; split; auto. right. exists r. auto.
Qed.

Lemma accessible_apps_mono_witness :
  {| name := py "Personal ChatBot"; description := py "Personal ChatBot";
     page := py "home.py"; access_privilege_role := [py "user"] |}
  ∈ accessible_apps (Some [py "guest"; py "user"]) APPS.
Proof.
  apply (accessible_apps_mono [py "user"] [py "guest"; py "user"]).
  - intros r Hr. by right.
  - vm_compute. left.
Defined.

(** Only the set of roles counts: order and repetition do not. *)
Theorem accessible_apps_set (roles roles' : list pystr) (apps : list App) :
  (forall r, r ∈ roles <-> r ∈ roles') ->
  accessible_apps (Some roles) apps = accessible_apps (Some roles') apps.
Proof.
  intros Heq. unfold accessible_apps.
  rewrite (bool_decide_ext _ _ (Heq (py "admin"))).
  assert ((list_to_set roles : gset pystr) = list_to_set roles') as Hset.
  { apply set_eq. intros r. by rewrite !elem_of_list_to_set. }
  unfold roles_intersect. by rewrite Hset.
Qed.

Lemma accessible_apps_set_witness :
  accessible_apps (Some [py "user"; py "guest"; py "user"]) APPS
  = accessible_apps (Some [py "guest"; py "user"]) APPS.
Proof.
  apply accessible_apps_set. intros r.
  rewrite !elem_of_cons, !elem_of_nil. tauto.
Defined.

(** ** Session bookkeeping of [login.py] *)

(** Logging out removes the two keys and nothing else, and doing it twice
    is doing it once. *)
Theorem clear_session_state_spec {V} (ss : gmap pystr V) :
  (forall key,
     clear_session_state_on_logout ss !! key =
     if bool_decide (key ∈ keys_to_clear) then None else ss !! key)
  /\ clear_session_state_on_logout (clear_session_state_on_logout ss)
     = clear_session_state_on_logout ss.
Proof.
  assert (forall m : gmap pystr V,
            clear_session_state_on_logout m
            = delete (py "chat_messages") (delete (py "authentication_status") m))
    as Hdel.
  { intros m. unfold clear_session_state_on_logout, keys_to_clear. cbn [foldl].
    destruct (m !! py "authentication_status") eqn:E1.
    - destruct (delete (py "authentication_status") m !! py "chat_messages") eqn:E2;
        [done|]. by rewrite (delete_id _ _ E2).
    - rewrite (delete_id _ _ E1).
      destruct (m !! py "chat_messages") eqn:E2; [done|]. by rewrite (delete_id _ _ E2). }
  split.
  - intros key. rewrite Hdel. unfold keys_to_clear. case_bool_decide as Hk.
    + rewrite !elem_of_cons, elem_of_nil in Hk. destruct Hk as [->|[->|[]]].
      * rewrite lookup_delete_ne by done. apply lookup_delete_eq.
      * apply lookup_delete_eq.
    + rewrite !not_elem_of_cons in Hk. destruct Hk as (H1 & H2 & _).
      by rewrite !lookup_delete_ne.
  - rewrite !Hdel. apply map_eq. intros key.
    destruct (decide (key = py "chat_messages")) as [->|H2];
      [by rewrite !lookup_delete_eq|].
    rewrite !(lookup_delete_ne _ (py "chat_messages")) by done.
    destruct (decide (key = py "authentication_status")) as [->|H1];
      [by rewrite !lookup_delete_eq|].
    by rewrite !lookup_delete_ne.
Qed.

(** The session identifier is drawn once: a later identifier does not
    replace it, and no other key is touched. *)
Theorem session_id_stable (u1 u2 : pystr) (ss : gmap pystr sval) :
  is_Some (init_session_id u1 ss !! py "session_id")
  /\ init_session_id u2 (init_session_id u1 ss) = init_session_id u1 ss
  /\ (forall key, key ≠ py "session_id" -> init_session_id u1 ss !! key = ss !! key)
  /\ (forall v, ss !! py "session_id" = Some v ->
        init_session_id u1 ss !! py "session_id" = Some v).
Proof.
  unfold init_session_id.
  destruct (ss !! py "session_id") as [v|] eqn:E.
  - rewrite E. repeat split; eauto.
  - rewrite lookup_insert_eq. repeat split; eauto.
    all: try (intros key Hk; by rewrite lookup_insert_ne).
    all: try (intros v' H; discriminate H).
Qed.

Lemma session_id_stable_witness :
  init_session_id (py "id-2") (init_session_id (py "id-1") ∅) !! py "session_id"
  = Some (SStr (py "id-1")).
Proof.
  rewrite (proj1 (proj2 (session_id_stable (py "id-1") (py "id-2") ∅))).
  exact (proj2 (proj2 (proj2 (session_id_stable (py "id-1") (py "id-2")
                                 (init_session_id (py "id-1") ∅))))
           (SStr (py "id-1")) eq_refl).
Defined.

(** ** The script after the login widget *)

Lemma navigate_runs (acc : list App) (f : pystr) :
  LRun f ∈ navigate acc <-> f = py "home1.py".
Proof.
  unfold navigate, pages. cbn [List.map snd concat app page_file].
  rewrite !elem_of_cons, elem_of_nil. split.
  - intros [H|[[= ->]|[]]]; [discriminate H|done].
  - intros ->. right. by left.
Qed.

(** A page is run exactly when the session is authenticated and its roles
    are a list or a string, and the page is then [home1.py], whatever the
    roles and the configured applications. *)
Theorem page_runs_iff (apps : list App) (ss : gmap pystr sval) (f : pystr) :
  LRun f ∈ (after_login apps ss).2 <->
  f = py "home1.py"
  /\ (exists v, ss !! py "authentication_status" = Some v /\ truthy v = true)
  /\ (exists v, ss !! py "roles" = Some v /\
                ((exists l, v = SList l) \/ exists s, v = SStr s)).
Proof.
  unfold after_login, authenticated.
  destruct (ss !! py "authentication_status") as [v|] eqn:Est.
  - destruct (truthy v) eqn:Ht.
    + destruct (ss !! py "roles") as [[| |s|l]|] eqn:Er; cbn [snd].
      * rewrite elem_of_cons, elem_of_nil. split; [intros [H|[]]; discriminate H|].
        intros (_ & _ & (v' & [= <-] & [(l & H)|(s & H)])); discriminate H.
      * rewrite elem_of_cons, elem_of_nil. split; [intros [H|[]]; discriminate H|].
        intros (_ & _ & (v' & [= <-] & [(l & H)|(s & H)])); discriminate H.
      * rewrite elem_of_app, navigate_runs, !elem_of_cons, elem_of_nil. split.
        -- intros [[H|[H|[H|[]]]]| ->]; try discriminate H. eauto 10.
        -- intros (-> & _). by right.
      * rewrite elem_of_app, navigate_runs, !elem_of_cons, elem_of_nil. split.
        -- intros [[H|[H|[H|[]]]]| ->]; try discriminate H. eauto 10.
        -- intros (-> & _). by right.
      * rewrite elem_of_cons, elem_of_nil. split; [intros [H|[]]; discriminate H|].
        intros (_ & _ & (v' & H & _)). discriminate H.
    + split.
      * destruct v as [|[]|[]|[]]; cbn [snd]; try discriminate Ht;
          rewrite ?elem_of_cons, ?elem_of_nil; intros H; try done;
          destruct H as [H|[]]; discriminate H.
      * intros (_ & (v' & [= <-] & Ht') & _). congruence.
  - cbn [snd]. rewrite elem_of_cons, elem_of_nil. split.
    + intros [H|[]]. discriminate H.
    + intros (_ & (v' & H & _) & _). discriminate H.
Qed.

(** An authenticated session whose roles are missing, [None] or not
    iterable ends with the [TypeError] of the welcome line: nothing is
    shown but the columns, no navigation is built, the session is as it
    was. *)
Theorem roles_missing_type_error (apps : list App) (ss : gmap pystr sval) (v : sval) :
  ss !! py "authentication_status" = Some v -> truthy v = true ->
  (ss !! py "roles" = None \/ ss !! py "roles" = Some SNone
   \/ exists b, ss !! py "roles" = Some (SBool b)) ->
  after_login apps ss = (TypeError, ss, [LColumns]).
Proof.
  intros Hst Ht Hr. unfold after_login, authenticated. rewrite Hst, Ht.
  destruct Hr as [->|[->|(b & ->)]]; done.
Qed.

Lemma roles_missing_type_error_witness :
  after_login APPS {[ py "authentication_status" := SBool true;
                      py "name" := SStr (py "Ada") ]}
  = (TypeError,
     {[ py "authentication_status" := SBool true; py "name" := SStr (py "Ada") ]},
     [LColumns]).
Proof.
  apply (roles_missing_type_error APPS _ (SBool true)).
  - by vm_compute.
  - reflexivity.
  - left. by vm_compute.
Defined.

(** A session that is not logged in (status [None] or absent) is asked to
    log in and loses its authentication status and chat messages, and
    nothing else; a session with a wrong password (status [False]) gets
    the error and keeps everything. *)
Theorem not_logged_in (apps : list App) (ss : gmap pystr sval) :
  (ss !! py "authentication_status" = None
   \/ ss !! py "authentication_status" = Some SNone ->
   exists ss', after_login apps ss = (Done, ss', [LInfo please_log_in])
     /\ ss' !! py "authentication_status" = None
     /\ ss' !! py "chat_messages" = None
     /\ forall key, key ∉ keys_to_clear -> ss' !! key = ss !! key)
  /\ (ss !! py "authentication_status" = Some (SBool false) ->
      after_login apps ss =
        (Done, ss, [LError (py "Username/password is incorrect")])).
Proof.
  split.
  - intros Hst. exists (clear_session_state_on_logout ss). split.
    + unfold after_login. by destruct Hst as [->| ->].
    + destruct (clear_session_state_spec ss) as [Hl _]. repeat split.
      * by rewrite Hl.
      * by rewrite Hl.
      * intros key Hk. rewrite Hl. by rewrite bool_decide_eq_false_2.
  - intros Hst. unfold after_login. by rewrite Hst.
Qed.

Lemma not_logged_in_witness :
  after_login APPS {[ py "session_id" := SStr (py "id-1");
                      py "authentication_status" := SBool false ]}
  = (Done,
     {[ py "session_id" := SStr (py "id-1"); py "authentication_status" := SBool false ]},
     [LError (py "Username/password is incorrect")]).
Proof.
  apply (proj2 (not_logged_in APPS _)). by vm_compute.
Defined.

End MoreLogin.

(** ** Cleaning of text ([home1.py], lines 61-62 and 145-148) *)

Section MoreStrings.
Import Home1.

Lemma lstrip_decomp (s : pystr) :
  exists pre, s = pre ++ lstrip s /\ Forall (fun c => isspace c = true) pre.
Proof.
  induction s as [|a s (pre & Hs & Hpre)]; cbn [lstrip]; [by exists []|].
  destruct (isspace a) eqn:Ha.
  - exists (a :: pre). split; [cbn; congruence|by constructor].
  - by exists [].
Qed.

Lemma rstrip_decomp (s : pystr) :
  exists post, s = rstrip s ++ post /\ Forall (fun c => isspace c = true) post.
Proof.
  destruct (lstrip_decomp (rev s)) as (pre & Hs & Hpre).
  exists (rev pre). split.
  - unfold rstrip. rewrite <- rev_app_distr, <- Hs. by rewrite rev_involutive.
  - apply Forall_forall. intros c Hc. rewrite Forall_forall in Hpre.
    apply Hpre. apply list_elem_of_In. apply list_elem_of_In in Hc.
    by apply in_rev.
Qed.

Lemma strip_head (s : pystr) (c : N) (r : pystr) :
  strip s = c :: r -> isspace c = false.
Proof.
  unfold strip. destruct (lstrip_shape s) as [->|(c' & r' & -> & Hc')]; [done|].
  change (c' :: r') with ([] ++ c' :: r').
  rewrite rstrip_app_nonspace by done. by intros [= <- _].
Qed.

Lemma strip_last (s u : pystr) (c : N) :
  strip s = u ++ [c] -> isspace c = false.
Proof.
  unfold strip. destruct (rstrip_shape (lstrip s)) as [->|(u' & c' & -> & Hc')].
  - by destruct u.
  - intros H. apply app_inj_tail in H as [_ <-]. done.
Qed.

Lemma strip_fixed (s : pystr) :
  (forall c r, s = c :: r -> isspace c = false) ->
  (forall u c, s = u ++ [c] -> isspace c = false) ->
  strip s = s.
Proof.
  intros Hh Hl. unfold strip. destruct s as [|a s]; [done|].
  cbn [lstrip]. rewrite (Hh a s eq_refl).
  destruct (exists_last (l := a :: s)) as (u & c & E); [done|].
  rewrite E. rewrite rstrip_app_nonspace by (by eapply Hl).
  done.
Qed.

(** Stripping removes whitespace at both ends and nothing else: what is
    left neither starts nor ends with whitespace, what was removed is
    whitespace, and stripping again changes nothing. *)
Theorem strip_spec (s : pystr) :
  (forall c r, strip s = c :: r -> isspace c = false)
  /\ (forall u c, strip s = u ++ [c] -> isspace c = false)
  /\ (exists pre post,
        s = pre ++ strip s ++ post
        /\ Forall (fun c => isspace c = true) pre
        /\ Forall (fun c => isspace c = true) post)
  /\ strip (strip s) = strip s.
Proof.
  split; [apply strip_head|]. split; [apply strip_last|]. split.
  - destruct (lstrip_decomp s) as (pre & Hs & Hpre).
    destruct (rstrip_decomp (lstrip s)) as (post & Hr & Hpost).
    exists pre, post. unfold strip. rewrite <- Hr. done.
  - apply strip_fixed; [apply strip_head|apply strip_last].
Qed.

Lemma strip_spec_witness :
  isspace 104 = false /\ strip (py "  hello world ") = py "hello world".
Proof.
  split.
  - exact (proj1 (strip_spec (py "  hello world ")) 104 (py "ello world") eq_refl).
  - reflexivity.
Defined.

Lemma strip_elem (s : pystr) (c : N) : c ∈ strip s -> c ∈ s.
Proof.
  destruct (strip_spec s) as (_ & _ & (pre & post & Hs & _) & _).
  intros Hc. rewrite Hs. rewrite !elem_of_app. auto.
Qed.

Lemma rsplit1_head_elem (sep : N) (s : pystr) (c : N) :
  c ∈ rsplit1_head sep s -> c ∈ s.
Proof.
  unfold rsplit1_head. destruct (before_last sep s) as [p|] eqn:E; [|done].
  apply before_last_split in E as (post & -> & _). intros Hc.
  apply elem_of_app. by left.
Qed.

(** A snippet holds no newline; and the text of a chunk that has no
    newline, no whitespace at either end and at most 1000 characters is its
    own snippet. *)
Theorem snippet_one_line (d : Document) :
  (10 ∉ snippet d)
  /\ ((10 ∉ page_content d) ->
      (forall c r, page_content d = c :: r -> isspace c = false) ->
      (forall u c, page_content d = u ++ [c] -> isspace c = false) ->
      (length (page_content d) <= 1000)%nat ->
      snippet d = page_content d).
Proof.
  assert (10 ∉ cleaned d) as Hclean.
  { intros Hc. apply strip_elem in Hc. unfold replace1 in Hc.
    apply list_elem_of_In, in_map_iff in Hc as (c & Hc & _).
    destruct (N.eqb_spec c 10); [discriminate Hc|congruence]. }
  split.
  - unfold snippet. destruct (1000 <? length (cleaned d))%nat; [|done].
    intros Hc. apply elem_of_app in Hc as [Hc|Hc].
    + apply rsplit1_head_elem in Hc. unfold slice_to in Hc.
      apply Hclean. rewrite <- (take_drop 1000 (cleaned d)).
      apply elem_of_app. by left.
    + unfold ellipsis in Hc. rewrite elem_of_cons, elem_of_nil in Hc.
      destruct Hc as [Hc|[]]. discriminate Hc.
  - intros Hnl Hh Hl Hlen.
    assert (replace1 10 32 (page_content d) = page_content d) as Hrep.
    { unfold replace1. rewrite <- (map_id (page_content d)) at 2.
      apply map_ext_in. intros c Hc. destruct (N.eqb_spec c 10) as [->|]; [|done].
      by apply list_elem_of_In in Hc. }
    assert (cleaned d = page_content d) as Hc.
    { unfold cleaned. rewrite Hrep. by apply strip_fixed. }
    unfold snippet. rewrite Hc.
    destruct (Nat.ltb_spec 1000 (length (page_content d))); [lia|done].
Qed.

Lemma snippet_one_line_witness :
  snippet {| page_content := py "Total revenue was 42."; metadata := ∅ |}
  = py "Total revenue was 42.".
Proof.
  apply (proj2 (snippet_one_line
                  {| page_content := py "Total revenue was 42."; metadata := ∅ |})).
  - intros H. apply list_elem_of_In in H. vm_compute in H.
    repeat (destruct H as [H|H]; [discriminate H|]). destruct H.
  - intros c r [= <- _]. reflexivity.
  - intros u c H.
    change (py "Total revenue was 42.") with (py "Total revenue was 42" ++ [46]) in H.
    apply app_inj_tail in H as [_ <-]. reflexivity.
  - vm_compute. lia.
Defined.

(** The chunks handed to the index have no whitespace at their ends: they
    are the chunks of the splitter, stripped, with their metadata; and
    loading calls the loader once, then the splitter once on its pages. *)
Theorem chunks_stripped w tp s docs s1 :
  load_and_split w tp s = (Val docs, s1) ->
  exists pages raw,
    o_load w = Returns pages
    /\ o_split w = Returns raw
    /\ List.map metadata docs = List.map metadata raw
    /\ List.map page_content docs = List.map (fun d => strip (page_content d)) raw
    /\ Forall (fun d => strip (page_content d) = page_content d) docs
    /\ s1 = log s [Lib (PyPDFLoaderInit tp); Lib LoaderLoad; Lib (SplitDocuments pages)].
Proof.
  unfold load_and_split, lib, bind, emit, ret, raise, log. cbn [session fs trace].
  destruct (o_loader w) as [[]|e0]; [|done].
  destruct (o_load w) as [pages|e1]; [|done].
  destruct (o_split w) as [raw|e2]; [|done].
  intros [= <- <-]. exists pages, raw. rewrite !map_map. cbn [metadata page_content].
  repeat split; try done.
  - apply Forall_forall. intros d Hd.
    apply list_elem_of_In, in_map_iff in Hd as (r & <- & _). cbn [page_content].
    apply strip_spec.
  - by rewrite <- !app_assoc.
Qed.

Lemma chunks_stripped_witness :
  exists pages raw,
    o_load Samples.openai_ok = Returns pages
    /\ o_split Samples.openai_ok = Returns raw
    /\ List.map metadata
         [ {| page_content := py "Total revenue was 42.";
              metadata := metadata Samples.page3 |};
           {| page_content := page_content Samples.long_doc;
              metadata := metadata Samples.long_doc |} ]
       = List.map metadata raw.
Proof.
  destruct (chunks_stripped Samples.openai_ok (py "/tmp/temp_report.pdf") Samples.fresh
              [ {| page_content := py "Total revenue was 42.";
                   metadata := metadata Samples.page3 |};
                {| page_content := page_content Samples.long_doc;
                   metadata := metadata Samples.long_doc |} ]
              (log Samples.fresh [Lib (PyPDFLoaderInit (py "/tmp/temp_report.pdf"));
                                  Lib LoaderLoad; Lib (SplitDocuments [Samples.page3])])
              eq_refl) as (pages & raw & H0 & H1 & H2 & _).
  exists pages, raw. by repeat split.
Defined.

Lemma match_slash {A} (n : N) (a b : A) :
  match n with 47 => a | _ => b end = if n =? 47 then a else b.
Proof.
  destruct n as [|p]; [done|].
  do 6 (destruct p as [p|p|]; try reflexivity).
Qed.

(** The temporary path of [home1.py] is the temporary directory followed by
    [temp_] and the upload's name, with a slash between the two exactly when
    the directory is not empty and does not end with one; on either page two
    uploads share their temporary path exactly when they share their name. *)
Theorem temp_path_spec :
  (forall w up,
     gettempdir w = [] \/ (exists dir, gettempdir w = dir ++ [47]) ->
     Home1.temp_path w up = gettempdir w ++ py "temp_" ++ upload_name up)
  /\ (forall w up dir c,
     gettempdir w = dir ++ [c] -> c ≠ 47 ->
     Home1.temp_path w up = gettempdir w ++ [47] ++ py "temp_" ++ upload_name up)
  /\ (forall w up1 up2,
        Home1.temp_path w up1 = Home1.temp_path w up2 <->
        upload_name up1 = upload_name up2)
  /\ (forall up1 up2,
        Home.temp_path up1 = Home.temp_path up2 <-> upload_name up1 = upload_name up2).
Proof.
  assert (forall w up,
            Home1.temp_path w up =
            (gettempdir w ++ if List.last (gettempdir w) 47 =? 47 then [] else [47])
            ++ py "temp_" ++ upload_name up) as Hform.
  { intros w up. unfold Home1.temp_path, path_join.
    change (py "temp_" ++ upload_name up) with (116 :: py "emp_" ++ upload_name up).
    cbv iota. rewrite !match_slash, <- app_assoc.
    by destruct (List.last (gettempdir w) 47 =? 47). }
  split; [|split; [|split]].
  - intros w up Hdir. rewrite Hform.
    assert (List.last (gettempdir w) 47 = 47) as ->.
    { destruct Hdir as [->|(dir & ->)]; [done|apply last_last]. }
    cbn [N.eqb Pos.eqb]. by rewrite app_nil_r.
  - intros w up dir c Hdir Hc. rewrite Hform, Hdir, last_last.
    destruct (N.eqb_spec c 47) as [|_]; [done|]. by rewrite <- !app_assoc.
  - intros w up1 up2. rewrite !Hform. split.
    + intros H. apply app_inv_head in H. by apply app_inv_head in H.
    + by intros ->.
  - intros up1 up2. unfold Home.temp_path. split.
    + intros H. by apply app_inv_head in H.
    + by intros ->.
Qed.

Lemma temp_path_spec_witness :
  Home1.temp_path Samples.openai_ok Samples.report = py "/tmp/temp_report.pdf".
Proof.
  apply (proj1 (proj2 temp_path_spec) Samples.openai_ok Samples.report (py "/tm") 112);
    [reflexivity|discriminate].
Defined.

End MoreStrings.

(** ** Whole runs of the pages *)

Import Observe.

Section MorePages.

Lemma kickoffs_app (l1 l2 : list event) :
  kickoffs (l1 ++ l2) = (kickoffs l1 + kickoffs l2)%nat.
Proof.
  induction l1 as [|e l1 IH]; [done|].
  destruct e as [| | | | | | | | | | | | |[]]; cbn [app kickoffs]; auto.
  by rewrite IH.
Qed.

Lemma kickoffs_history (l : list message) :
  kickoffs (List.map (fun m => StChatMessage (role m) (content m)) l) = 0%nat.
Proof. induction l; cbn; auto. Qed.

Lemma chat_input_history (l : list message) :
  existsb is_chat_input (List.map (fun m => StChatMessage (role m) (content m)) l)
  = false.
Proof. induction l; cbn; auto. Qed.

End MorePages.

Ltac count_events :=
  repeat (cbn [app existsb is_chat_input kickoffs orb Nat.add];
          try match goal with
          | |- context [kickoffs (_ ++ _)] => rewrite !kickoffs_app
          | |- context [kickoffs (List.map _ _)] => rewrite !kickoffs_history
          | |- context [existsb is_chat_input (_ ++ _)] => rewrite !existsb_app
          | |- context [existsb is_chat_input (List.map _ _)] =>
              rewrite !chat_input_history
          end).

(** The history after a run: the one before, and at most two messages. *)
Ltac grown :=
  unfold history; cbn [session messages default];
  first
    [ exists []; split; [by rewrite ?app_nil_r|];
      split; [cbn; lia|constructor]
    | eexists [_]; split; [reflexivity|];
      split; [cbn; lia|repeat constructor; by (left + right)]
    | eexists [_; _]; split; [by rewrite <- ?app_assoc|];
      split; [cbn; lia|repeat constructor; by (left + right)] ].

(** ** Fragments do not depend on what was logged before *)

Section Framed.

Lemma with_trace_twice (s : state) (t1 t2 : list event) :
  with_trace (with_trace s t1) t2 = with_trace s t2.
Proof. reflexivity. Qed.

Lemma framed_intro {A} (m : M A) :
  (forall s, exists r s0,
      m (with_trace s []) = (r, s0) /\ m s = (r, with_trace s0 (trace s ++ trace s0))) ->
  framed m.
Proof. intros H s. destruct (H s) as (r & s0 & -> & ->). done. Qed.

Lemma framed_elim {A} (m : M A) (s : state) :
  framed m ->
  exists r s0,
    m (with_trace s []) = (r, s0) /\ m s = (r, with_trace s0 (trace s ++ trace s0)).
Proof.
  intros H. destruct (m (with_trace s [])) as [r s0] eqn:E. exists r, s0.
  split; [done|]. by rewrite (H s), E.
Qed.

Lemma framed_ret {A} (a : A) : framed (ret a).
Proof. intros s. cbn. unfold with_trace. cbn. rewrite app_nil_r. by destruct s. Qed.

Lemma framed_raise {A} (e : exc) : framed (@raise A e).
Proof. intros s. cbn. unfold with_trace. cbn. rewrite app_nil_r. by destruct s. Qed.

Lemma framed_emit (e : event) : framed (emit e).
Proof. intros s. reflexivity. Qed.

Lemma framed_get_session : framed get_session.
Proof. intros s. cbn. unfold with_trace. cbn. rewrite app_nil_r. by destruct s. Qed.

Lemma framed_put_session (ss : session_state) : framed (put_session ss).
Proof. intros s. cbn. unfold with_trace. cbn. by rewrite app_nil_r. Qed.

Lemma framed_bind {A B} (m : M A) (k : A -> M B) :
  framed m -> (forall a, framed (k a)) -> framed (bind m k).
Proof.
  intros Hm Hk. apply framed_intro. intros s.
  destruct (framed_elim m s Hm) as (r & s0 & E0 & E).
  unfold bind. rewrite E0, E. destruct r as [a|e]; [|by eexists _, _].
  destruct (framed_elim (k a) s0 (Hk a)) as (r1 & s1 & E1 & E1').
  destruct (framed_elim (k a) (with_trace s0 (trace s ++ trace s0)) (Hk a))
    as (r2 & s2 & E2 & E2').
  rewrite with_trace_twice in E2. rewrite E1 in E2. injection E2 as <- <-.
  exists r1, (with_trace s1 (trace s0 ++ trace s1)). split; [done|].
  rewrite E2'. cbn [trace with_trace]. unfold with_trace. cbn. by rewrite app_assoc.
Qed.

Lemma framed_try_except {A} (body : M A) (catches : error -> bool)
    (handler : error -> M A) :
  framed body -> (forall e, framed (handler e)) ->
  framed (try_except body catches handler).
Proof.
  intros Hb Hh. apply framed_intro. intros s.
  destruct (framed_elim body s Hb) as (r & s0 & E0 & E).
  unfold try_except. rewrite E0, E.
  destruct r as [a|[|e]]; try by eexists _, _.
  destruct (catches e); [|by eexists _, _].
  destruct (framed_elim (handler e) s0 (Hh e)) as (r1 & s1 & E1 & E1').
  destruct (framed_elim (handler e) (with_trace s0 (trace s ++ trace s0)) (Hh e))
    as (r2 & s2 & E2 & E2').
  rewrite with_trace_twice in E2. rewrite E1 in E2. injection E2 as <- <-.
  exists r1, (with_trace s1 (trace s0 ++ trace s1)). split; [done|].
  rewrite E2'. unfold with_trace. cbn. by rewrite app_assoc.
Qed.

Lemma framed_try_finally {A} (body : M A) (fin : M unit) :
  framed body -> framed fin -> framed (try_finally body fin).
Proof.
  intros Hb Hf. apply framed_intro. intros s.
  destruct (framed_elim body s Hb) as (r & s0 & E0 & E).
  unfold try_finally. rewrite E0, E.
  destruct (framed_elim fin s0 Hf) as (r1 & s1 & E1 & E1').
  destruct (framed_elim fin (with_trace s0 (trace s ++ trace s0)) Hf)
    as (r2 & s2 & E2 & E2').
  rewrite with_trace_twice in E2. rewrite E1 in E2. injection E2 as <- <-.
  rewrite E1', E2'. unfold with_trace. cbn.
  destruct r1 as [[]|e]; eexists _, _; (split; [reflexivity|]);
    cbn; by rewrite app_assoc.
Qed.

Lemma framed_lib {A} (c : call) (o : outcome A) : framed (lib c o).
Proof.
  unfold lib. apply framed_bind; [apply framed_emit|intros _].
  destruct o; [apply framed_ret|apply framed_raise].
Qed.

Lemma framed_open_write (path : pystr) (data : list Byte.byte) (o1 o2 : outcome unit) :
  framed (open_write path data o1 o2).
Proof.
  intros s. unfold open_write, bind, emit, put_fs, raise, with_trace.
  destruct o1 as [[]|e1]; [destruct o2 as [[]|e2]|]; cbn;
    by rewrite <- ?app_assoc.
Qed.

Lemma framed_makedirs (path : pystr) (o : outcome unit) : framed (makedirs path o).
Proof.
  intros s. unfold makedirs, bind, emit, put_fs, raise, with_trace.
  destruct o as [[]|e]; cbn; by rewrite <- ?app_assoc.
Qed.

Lemma framed_cleanup (tp : pystr) (o : outcome unit) : framed (cleanup tp o).
Proof.
  intros s. unfold cleanup, with_trace. cbn [fs].
  destruct (fs s !! tp).
  - destruct o as [[]|e]; cbn; done.
  - cbn. rewrite app_nil_r. by destruct s.
Qed.

Lemma framed_show_each (l : list message) : framed (show_each l).
Proof.
  induction l as [|m l IH]; cbn [show_each].
  - apply framed_ret.
  - apply framed_bind; [apply framed_emit|by intros _].
Qed.

End Framed.

Ltac framed_step :=
  lazymatch goal with
  | |- framed (lib _ _) => apply framed_lib
  | |- framed (open_write _ _ _ _) => apply framed_open_write
  | |- framed (makedirs _ _) => apply framed_makedirs
  | |- framed (cleanup _ _) => apply framed_cleanup
  | |- framed (show_each _) => apply framed_show_each
  | |- framed (emit _) => apply framed_emit
  | |- framed (ret _) => apply framed_ret
  | |- framed (raise _) => apply framed_raise
  | |- framed get_session => apply framed_get_session
  | |- framed (put_session _) => apply framed_put_session
  | |- framed (try_except _ _ _) => apply framed_try_except; [|intros ?]
  | |- framed (try_finally _ _) => apply framed_try_finally
  | |- framed (bind _ _) => apply framed_bind; [|intros ?]
  | |- framed (match ?x with _ => _ end) => destruct x
  end.

Ltac framed_run := repeat (framed_step; cbv beta zeta).

Section PagesFramed.

Lemma home_framed w : framed (Home.home w).
Proof.
  unfold Home.home, Home.before_upload, Home.check_key, Home.processing,
    Home.after_save, Home.load_models, Home.init_flag, Home.init_rag_tool,
    Home.index_pdf, Home.answer, Home.question, init_messages, show_history,
    append_message, attribute_error, st_stop.
  framed_run.
Qed.

Lemma home1_framed w : framed (Home1.home1 w).
Proof.
  unfold Home1.home1, Home1.before_upload, Home1.check_key, Home1.reset_flags,
    Home1.processing, Home1.after_save, Home1.load_and_split,
    Home1.init_embeddings, Home1.build_vectorstore, Home1.init_rag_tool,
    Home1.answer, Home1.question, Home1.retrieve, init_messages, show_history,
    append_message, attribute_error, st_stop.
  framed_run.
Qed.

(** What a run adds, keeps and changes is read off the run from an empty
    trace. *)
Lemma framed_run_from {A} (m : M A) (s : state) :
  framed m ->
  let r0 := m (with_trace s []) in
  fst (m s) = fst r0
  /\ added s (snd (m s)) = trace (snd r0)
  /\ session (snd (m s)) = session (snd r0)
  /\ fs (snd (m s)) = fs (snd r0).
Proof.
  intros Hm r0. subst r0. rewrite (Hm s). cbn [fst snd]. unfold added, with_trace.
  cbn [trace session fs]. by rewrite drop_app_length.
Qed.

End PagesFramed.

Ltac run_script0 := cbn -[py]; repeat (run_step; cbn -[py] in * ).

Section HomeFacts.

(** What every run of [home.py] keeps, read off the run from an empty
    trace. *)
Lemma home_facts0 w s r :
  trace s = [] ->
  Home.home w s = r ->
  (exists new, history (snd r) = history s ++ new /\ (length new <= 2)%nat
               /\ Forall chat_role new)
  /\ (kickoffs (trace (snd r)) <= 1)%nat
  /\ (kickoffs (trace (snd r)) = 1%nat ->
      exists c q, Home.user_input w = Some (c :: q))
  /\ (existsb is_chat_input (trace (snd r)) = true <->
      absent (Home.GEMINI_API_KEY w) = false
      /\ is_Some (Home.uploaded_file w)
      /\ is_returns (Home.o_open w) && is_returns (Home.o_write w)
         && is_returns (Home.o_embeddings w) && is_returns (Home.o_llm w)
         && is_returns (Home.o_makedirs w) && is_returns (Home.o_rag_tool w)
         && is_returns (Home.o_agent w) = true
      /\ (vector_db_initialized (session s) = Some true
          \/ is_returns (Home.o_add w) = true)).
Proof.
  destruct w, s as [[flag msgs ini] fs0 tr]. cbn [Home.user_input Home.GEMINI_API_KEY
    Home.uploaded_file Home.o_open Home.o_write Home.o_embeddings Home.o_llm
    Home.o_makedirs Home.o_rag_tool Home.o_agent Home.o_add trace session
    vector_db_initialized]. intros ->.
  unfold_home. run_script0.
  all: intros <-; cbn [snd trace].
  all: split; [grown|].
  all: split; [count_events; lia|].
  all: split; [count_events; intros; try lia; eauto|].
  all: count_events; split;
    [ intros; try discriminate; repeat split; eauto
    | intros (Hkey & Hup & Hret & Hadd); try reflexivity; try discriminate;
      try (by destruct Hup as [? [=]]); by destruct Hadd ].
Qed.

End HomeFacts.

Ltac unfold_page1 :=
  unfold Home1.home1, Home1.before_upload, Home1.check_key, Home1.reset_flags,
    Home1.processing, Home1.after_save, Home1.load_and_split,
    Home1.init_embeddings, Home1.build_vectorstore, Home1.init_rag_tool,
    Home1.answer, Home1.question, Home1.retrieve; unfold_run.

Ltac run_script1 :=
  cbn -[py Home1.temp_path Home1.vector_db_path];
  repeat (run_step; cbn -[py Home1.temp_path Home1.vector_db_path] in * ).

Section Home1Facts.

(** What every run of [home1.py] keeps, read off the run from an empty
    trace. *)
Lemma home1_facts0 w s r :
  trace s = [] ->
  Home1.home1 w s = r ->
  (exists new, history (snd r) = history s ++ new /\ (length new <= 2)%nat
               /\ Forall chat_role new)
  /\ (kickoffs (trace (snd r)) <= 1)%nat
  /\ (kickoffs (trace (snd r)) = 1%nat ->
      exists c q, Home1.user_input w = Some (c :: q))
  /\ (existsb is_chat_input (trace (snd r)) = true <->
      absent (Home1.OPENAI_API_KEY w) = false
      /\ is_Some (Home1.uploaded_file w)
      /\ is_returns (Home1.o_open w) && is_returns (Home1.o_write w)
         && is_returns (Home1.o_loader w) && is_returns (Home1.o_load w)
         && is_returns (Home1.o_split w) && is_returns (Home1.o_embeddings w)
         && is_returns (Home1.o_makedirs w) && is_returns (Home1.o_from_documents w)
         && is_returns (Home1.o_as_retriever w) && is_returns (Home1.o_agent w)
         = true).
Proof.
  destruct s as [[flag msgs ini] fs0 tr]. cbn [trace]. intros ->.
  set (tp := Home1.temp_path w). set (vp := Home1.vector_db_path w).
  intros Hrun. revert Hrun.
  assert (Home1.temp_path w = tp) as Htp by done.
  assert (Home1.vector_db_path w = vp) as Hvp by done.
  clearbody tp vp. revert Htp Hvp.
  destruct w. cbn [Home1.user_input Home1.OPENAI_API_KEY Home1.uploaded_file
    Home1.o_open Home1.o_write Home1.o_loader Home1.o_load Home1.o_split
    Home1.o_embeddings Home1.o_makedirs Home1.o_from_documents
    Home1.o_as_retriever Home1.o_agent].
  intros Htp Hvp. unfold_page1. rewrite ?Htp, ?Hvp.
  cbn -[py Home1.temp_path Home1.vector_db_path].
  rewrite ?Htp, ?Hvp. clear Htp Hvp.
  run_script1.
  all: intros <-; cbn [snd trace].
  all: split; [grown|].
  all: split; [count_events; lia|].
  all: split; [count_events; intros; try lia; eauto|].
  all: count_events; split;
    [ intros; try discriminate; repeat split; eauto
    | intros (Hkey & Hup & Hret); try reflexivity; try discriminate;
      by destruct Hup as [? [=]] ].
Qed.

End Home1Facts.

(** ** What the pages keep, for any run *)

Section PageRuns.

Lemma history_with_trace (s : state) (t : list event) :
  history (with_trace s t) = history s.
Proof. reflexivity. Qed.

Lemma home_from_empty w s :
  let r0 := Home.home w (with_trace s []) in
  added s (snd (Home.home w s)) = trace (snd r0)
  /\ history (snd (Home.home w s)) = history (snd r0)
  /\ fs (snd (Home.home w s)) = fs (snd r0).
Proof.
  destruct (framed_run_from (Home.home w) s (home_framed w)) as (_ & Ha & Hs & Hf).
  repeat split; try done. unfold history. by rewrite Hs.
Qed.

Lemma home1_from_empty w s :
  let r0 := Home1.home1 w (with_trace s []) in
  added s (snd (Home1.home1 w s)) = trace (snd r0)
  /\ history (snd (Home1.home1 w s)) = history (snd r0)
  /\ fs (snd (Home1.home1 w s)) = fs (snd r0).
Proof.
  destruct (framed_run_from (Home1.home1 w) s (home1_framed w)) as (_ & Ha & Hs & Hf).
  repeat split; try done. unfold history. by rewrite Hs.
Qed.

(** A run never loses or rewrites a chat message: the history after it is
    the history before it followed by at most two messages, each of the
    user or of the assistant. *)
Theorem history_grows :
  (forall w s, exists new,
     history (snd (Home.home w s)) = history s ++ new
     /\ (length new <= 2)%nat /\ Forall chat_role new)
  /\ (forall w s, exists new,
     history (snd (Home1.home1 w s)) = history s ++ new
     /\ (length new <= 2)%nat /\ Forall chat_role new).
Proof.
  split; intros w s.
  - destruct (home_from_empty w s) as (_ & -> & _).
    by destruct (home_facts0 w (with_trace s []) _ eq_refl eq_refl) as (H & _).
  - destruct (home1_from_empty w s) as (_ & -> & _).
    by destruct (home1_facts0 w (with_trace s []) _ eq_refl eq_refl) as (H & _).
Qed.



(** The agent is run at most once in a run, and only for a question that
    is not empty. *)
Theorem agent_once_per_question :
  (forall w s,
     (kickoffs (added s (snd (Home.home w s))) <= 1)%nat
     /\ (kickoffs (added s (snd (Home.home w s))) = 1%nat ->
         exists c q, Home.user_input w = Some (c :: q)))
  /\ (forall w s,
     (kickoffs (added s (snd (Home1.home1 w s))) <= 1)%nat
     /\ (kickoffs (added s (snd (Home1.home1 w s))) = 1%nat ->
         exists c q, Home1.user_input w = Some (c :: q))).
Proof.
  split; intros w s.
  - destruct (home_from_empty w s) as (-> & _).
    destruct (home_facts0 w (with_trace s []) _ eq_refl eq_refl) as (_ & H1 & H2 & _).
    by split.
  - destruct (home1_from_empty w s) as (-> & _).
    destruct (home1_facts0 w (with_trace s []) _ eq_refl eq_refl) as (_ & H1 & H2 & _).
    by split.
Qed.

Lemma agent_once_per_question_witness :
  exists c q, Home.user_input Samples.gemini_ok = Some (c :: q).
Proof.
  apply (proj2 (proj1 agent_once_per_question Samples.gemini_ok Samples.fresh)).
  by vm_compute.
Defined.

(** The chat input is offered exactly when the key is present, a file is
    uploaded, and every step before it returned: saving the upload, the
    models, the index and the agent, and on the Gemini-backed page the RAG
    tool and, unless the session's flag says the PDF is indexed, its
    indexing.  On the OpenAI-backed page the RAG tool is not among them: its
    failure does not keep the chat input away. *)
Theorem chat_after_setup :
  (forall w s,
     existsb is_chat_input (added s (snd (Home.home w s))) = true <->
     absent (Home.GEMINI_API_KEY w) = false
     /\ is_Some (Home.uploaded_file w)
     /\ is_returns (Home.o_open w) && is_returns (Home.o_write w)
        && is_returns (Home.o_embeddings w) && is_returns (Home.o_llm w)
        && is_returns (Home.o_makedirs w) && is_returns (Home.o_rag_tool w)
        && is_returns (Home.o_agent w) = true
     /\ (vector_db_initialized (session s) = Some true
         \/ is_returns (Home.o_add w) = true))
  /\ (forall w s,
     existsb is_chat_input (added s (snd (Home1.home1 w s))) = true <->
     absent (Home1.OPENAI_API_KEY w) = false
     /\ is_Some (Home1.uploaded_file w)
     /\ is_returns (Home1.o_open w) && is_returns (Home1.o_write w)
        && is_returns (Home1.o_loader w) && is_returns (Home1.o_load w)
        && is_returns (Home1.o_split w) && is_returns (Home1.o_embeddings w)
        && is_returns (Home1.o_makedirs w) && is_returns (Home1.o_from_documents w)
        && is_returns (Home1.o_as_retriever w) && is_returns (Home1.o_agent w)
        = true).
Proof.
  split; intros w s.
  - destruct (home_from_empty w s) as (-> & _).
    by destruct (home_facts0 w (with_trace s []) _ eq_refl eq_refl)
      as (_ & _ & _ & H).
  - destruct (home1_from_empty w s) as (-> & _).
    by destruct (home1_facts0 w (with_trace s []) _ eq_refl eq_refl)
      as (_ & _ & _ & H).
Qed.

Lemma chat_after_setup_witness :
  Home1.o_rag_tool MoreSamples.rag_down = Raises Samples.boom
  /\ existsb is_chat_input
       (added Samples.fresh (snd (Home1.home1 MoreSamples.rag_down Samples.fresh)))
     = true.
Proof.
  split; [reflexivity|].
  apply (proj2 chat_after_setup MoreSamples.rag_down Samples.fresh).
  split; [reflexivity|]. split; [by eexists|reflexivity].
Defined.

End PageRuns.

(** ** Single steps of the pages *)

Section Steps.

(** Without an upload a page shows its title, the uploader and the hint,
    and does nothing else: no file and no library is touched, the history
    stays. *)
Theorem no_upload_idle :
  (forall w s,
     absent (Home.GEMINI_API_KEY w) = false -> Home.uploaded_file w = None ->
     Home.home w s =
       (Val tt,
        log s [StSetPageConfig (py "PDF Assistant");
               StTitle ([128196] ++ py " PDF Assistant");
               StFileUploader (py "Upload your PDF file");
               StInfo (py "Please upload a PDF file to start the conversation.")]))
  /\ (forall w s,
     absent (Home1.OPENAI_API_KEY w) = false -> Home1.uploaded_file w = None ->
     fst (Home1.home1 w s) = Val tt
     /\ added s (snd (Home1.home1 w s)) =
          [StSetPageConfig (py "PDF Assistant");
           StTitle ([128196] ++ py " PDF Assistant");
           StFileUploader (py "Upload your PDF file");
           StInfo (py "Please upload a PDF file to start the conversation.")]
     /\ fs (snd (Home1.home1 w s)) = fs s
     /\ history (snd (Home1.home1 w s)) = history s).
Proof.
  split; intros w s Hkey Hup.
  - unfold Home.home, Home.before_upload, Home.check_key. rewrite Hkey, Hup.
    unfold bind, emit, ret, log. cbn [session fs trace].
    by rewrite <- !app_assoc.
  - unfold Home1.home1, Home1.before_upload, Home1.check_key, Home1.reset_flags.
    rewrite Hkey, Hup. unfold bind, emit, ret, get_session, put_session, added, history.
    cbn [session fs trace].
    destruct (initialized (session s)); cbn [fst snd session fs trace messages
      set_vector_db_initialized set_initialized]; rewrite <- !app_assoc;
      by rewrite drop_app_length.
Qed.

Lemma no_upload_idle_witness :
  fst (Home1.home1 MoreSamples.idle Samples.fresh) = Val tt.
Proof.
  exact (proj1 (proj2 no_upload_idle MoreSamples.idle Samples.fresh eq_refl eq_refl)).
Defined.

(** An exchange on the Gemini-backed page: the question is shown and
    stored, the task carries it word for word, and when the agent answers
    the answer is shown and stored after it; when the agent fails the
    question stays in the history without an answer. *)
Theorem exchange_recorded w up s old c q :
  Home.user_input w = Some (c :: q) ->
  messages (session s) = Some old ->
  Home.o_task w = Returns tt -> Home.o_crew w = Returns tt ->
  let asked :=
    [StChatInput (py "Ask something about the uploaded PDF...");
     StChatMessage (py "user") (c :: q);
     StSpinner (py "Analyzing your question...");
     Lib (TaskInit (c :: q) (py "Answer based on the content of " ++ upload_name up));
     Lib CrewInit; Lib CrewKickoff] in
  let user_msg := {| role := py "user"; content := c :: q |} in
  (forall answer,
     Home.o_kickoff w = Returns answer ->
     Home.answer w up s =
       (Val tt,
        {| session := set_messages
                        (Some (old ++ [user_msg;
                                       {| role := py "assistant"; content := answer |}]))
                        (session s);
           fs := fs s;
           trace := trace s ++ asked ++ [StChatMessage (py "assistant") answer] |}))
  /\ (forall e,
     Home.o_kickoff w = Raises e ->
     Home.answer w up s =
       (Val tt,
        {| session := set_messages (Some (old ++ [user_msg])) (session s);
           fs := fs s;
           trace := trace s ++ asked
                    ++ [StError (py "Error processing your question: " ++ msg e)] |})).
Proof.
  intros Hq Hold Ht Hc asked user_msg. subst asked user_msg.
  destruct s as [[flag msgs ini] fs0 tr]. cbn [session messages] in Hold. subst msgs.
  split; intros x Hk; unfold Home.answer, Home.question; unfold_run;
    rewrite Hq, Ht, Hc, Hk; cbn -[py app]; rewrite <- ?app_assoc; reflexivity.
Qed.

Lemma exchange_recorded_witness :
  history (snd (Home.answer Samples.gemini_ok Samples.report
                  (snd (init_messages Samples.fresh))))
  = [ {| role := py "user"; content := py "What is the total?" |};
      {| role := py "assistant"; content := py "42" |} ].
Proof.
  rewrite (proj1 (exchange_recorded Samples.gemini_ok Samples.report
                    (snd (init_messages Samples.fresh)) [] 87 (py "hat is the total?")
                    eq_refl eq_refl eq_refl eq_refl) (py "42") eq_refl).
  reflexivity.
Defined.

(** The first run of [home1.py] in a session sets [initialized] to
    [False] and drops a [vector_db_initialized] left in the session; every
    later run leaves the session alone.  Messages, files and trace are never
    touched. *)
Theorem reset_flags_once (s : state) :
  let s1 := snd (Home1.reset_flags s) in
  fst (Home1.reset_flags s) = Val tt
  /\ initialized (session s1) = Some (default false (initialized (session s)))
  /\ vector_db_initialized (session s1)
     = match initialized (session s) with
       | None => None
       | Some _ => vector_db_initialized (session s)
       end
  /\ messages (session s1) = messages (session s)
  /\ fs s1 = fs s /\ trace s1 = trace s
  /\ Home1.reset_flags s1 = (Val tt, s1).
Proof.
  destruct s as [[flag msgs [b|]] fs0 tr]; cbn; repeat split.
Qed.

(** [home1.py] builds the RAG tool but never adds the document to it: no
    run of the page calls [rag_tool.add]. *)
Theorem openai_page_never_adds w s p :
  Lib (RagToolAdd p) ∉ added s (snd (Home1.home1 w s)).
Proof.
  apply no_add_elem.
  assert (emits (fun e => is_add e = false) (Home1.home1 w)) as Hm.
  { unfold Home1.home1, Home1.before_upload, Home1.check_key, Home1.reset_flags,
      Home1.processing, Home1.after_save, Home1.load_and_split,
      Home1.init_embeddings, Home1.build_vectorstore, Home1.init_rag_tool,
      Home1.answer, Home1.question, Home1.retrieve, init_messages, show_history,
      append_message, attribute_error, st_stop.
    emits_run. }
  apply (emits_added _ _ s) in Hm.
  destruct (existsb is_add (added s (snd (Home1.home1 w s)))) eqn:E; [|done].
  apply existsb_exists in E as (e & Hin & He).
  rewrite Forall_forall in Hm. apply list_elem_of_In in Hin.
  specialize (Hm _ Hin). cbn in Hm. congruence.
Qed.

End Steps.
